(** * ScriptPlan: the Cython hot paths of the scheduler

    A shallow embedding of the three Cython modules of ScriptPlan
    (scoreboard operations, working-hours checks, time utilities) and the
    properties of the time grid, the calendar check and the scoreboard scan
    that the specification states about them.

    Conventions of the embedding.
    - A C [int] is a [Z]; every C operation wraps to 32 bits ([CInt.wrap32]).
      All three modules are compiled with [cdivision=True], so [%] on C ints
      is the C remainder ([Z.rem]), whose sign follows the dividend.
    - In the index conversions a C [double] is an exact rational [Q].
      Differences of whole-second datetimes are integers far below 2^53 and
      are represented exactly, and so is their truncated quotient by a C int;
      for sub-second values the rational is the idealised value of the
      double.  A division whose result is not finite, and a cast [<int>] of a
      value outside the int range, have no defined result: they are [None].
    - The C [float] that [calculate_daily_hours] returns is an IEEE 754
      binary32 number, computed with the operations of the Standard Library's
      [SpecFloat] (round to nearest, ties to even): the cast [<float>] of the
      C int, the division by the double constant 60.0 in binary64, and the
      conversion of the quotient to binary32 on return.
    - A naive [datetime] is its number of microseconds since
      0001-01-01T00:00:00 (a Monday); a [timedelta] is the normalised triple
      Python stores.  The range check of [datetime] (years 1..9999) is not
      modelled, and the functions are applied to datetime objects (on those
      [.total_seconds()] exists, so the [except AttributeError] arm of the
      time utilities is never entered). *)

From stdpp Require Import base option list gmap.
From Stdlib Require Import ZArith QArith Qround Qabs Lia Bool.
From Stdlib Require Import Floats.SpecFloat.

Local Open Scope Z_scope.

(** ** C integers *)

Module CInt.

Definition INT_MIN : Z := - 2 ^ 31.
Definition INT_MAX : Z := 2 ^ 31 - 1.

Definition in_int (z : Z) : Prop := INT_MIN <= z <= INT_MAX.

Definition in_intb (z : Z) : bool := (INT_MIN <=? z) && (z <=? INT_MAX).

(** Two's-complement wrap-around of a mathematical result to 32 bits. *)
Definition wrap32 (z : Z) : Z := (z + 2 ^ 31) mod 2 ^ 32 - 2 ^ 31.

Definition int_add (a b : Z) : Z := wrap32 (a + b).
Definition int_sub (a b : Z) : Z := wrap32 (a - b).
Definition int_mul (a b : Z) : Z := wrap32 (a * b).

(** [a % b] under [cdivision=True]: the C remainder. *)
Definition int_rem (a b : Z) : Z := Z.rem a b.

(** C [double]s, idealised as rationals. *)
Definition double : Type := Q.

Definition double_of_int (z : Z) : double := inject_Z z.

(** [a / b] on doubles; [None] when the divisor is zero (inf or NaN). *)
Definition double_div (a b : double) : option double :=
  if Qeq_bool b 0 then None else Some (a / b)%Q.

(** Rounding toward zero, as a C cast does. *)
Definition Qtrunc (q : Q) : Z := Z.quot (Qnum q) (Zpos (Qden q)).

(** [<int> q]: truncation toward zero, defined only inside the int range. *)
Definition double_to_int (q : double) : option Z :=
  let t := Qtrunc q in if in_intb t then Some t else None.

End CInt.

Import CInt.

(** ** C floating-point numbers *)

Module CFloat.

(** IEEE 754 binary32 (C [float]) and binary64 (C [double]). *)
Definition FLT_PREC : Z := 24.
Definition FLT_EMAX : Z := 128.
Definition DBL_PREC : Z := 53.
Definition DBL_EMAX : Z := 1024.

(** [<float> z] for a C int [z]. *)
Definition float_of_int (z : Z) : spec_float :=
  binary_normalize FLT_PREC FLT_EMAX z 0 false.

(** The promotion of a [float] operand to [double]; it is exact. *)
Definition double_of_float (x : spec_float) : spec_float :=
  match x with
  | S754_finite s m e => binary_round DBL_PREC DBL_EMAX s m e
  | _ => x
  end.

(** The conversion of a [double] to [float], as on return from a function
    declared [cpdef float]. *)
Definition float_of_double (x : spec_float) : spec_float :=
  match x with
  | S754_finite s m e => binary_round FLT_PREC FLT_EMAX s m e
  | _ => x
  end.

(** The [double] constant of an integer literal such as [60.0]. *)
Definition double_of_Z (z : Z) : spec_float :=
  binary_normalize DBL_PREC DBL_EMAX z 0 false.

Definition double_divide (x y : spec_float) : spec_float :=
  SFdiv DBL_PREC DBL_EMAX x y.

(** The rational a finite float stands for (0 for zeros; infinities and NaN,
    which stand for no number, are sent to 0 as well). *)
Definition float_value (x : spec_float) : Q :=
  match x with
  | S754_finite s m e => (inject_Z (cond_Zopp s (Zpos m)) * Qpower 2 e)%Q
  | _ => 0%Q
  end.

Definition is_number (x : spec_float) : bool :=
  match x with
  | S754_finite _ _ _ | S754_zero _ => true
  | _ => false
  end.

End CFloat.

Import CFloat.

(** ** Python's datetime and timedelta *)

Module PyTime.

(** Microseconds since 0001-01-01T00:00:00. *)
Definition datetime : Type := Z.

Record timedelta : Type := Timedelta {
  days : Z;
  seconds : Z;
  microseconds : Z
}.

Definition US_PER_SECOND : Z := 1000000.
Definition US_PER_DAY : Z := 86400 * US_PER_SECOND.

(** The microseconds a timedelta stands for. *)
Definition timedelta_us (td : timedelta) : Z :=
  (days td * 86400 + seconds td) * US_PER_SECOND + microseconds td.

(** Python's normal form: [0 <= seconds < 86400], [0 <= microseconds < 10^6]. *)
Definition timedelta_of_us (us : Z) : timedelta :=
  {| days := us / US_PER_DAY;
     seconds := (us mod US_PER_DAY) / US_PER_SECOND;
     microseconds := us mod US_PER_SECOND |}.

(** [timedelta(seconds=s)]. *)
Definition timedelta_of_seconds (s : Z) : timedelta :=
  {| days := s / 86400; seconds := s mod 86400; microseconds := 0 |}.

(** [a - b] on datetimes. *)
Definition datetime_sub (a b : datetime) : timedelta := timedelta_of_us (a - b).

(** [a + td]. *)
Definition datetime_add (a : datetime) (td : timedelta) : datetime :=
  a + timedelta_us td.

(** [td.total_seconds()]. *)
Definition total_seconds (td : timedelta) : double :=
  (inject_Z (timedelta_us td) / inject_Z US_PER_SECOND)%Q.

(** [dt.weekday()]: 0 is Monday, 6 is Sunday. *)
Definition weekday (dt : datetime) : Z := (dt / US_PER_DAY) mod 7.

(** [dt.hour] and [dt.minute]. *)
Definition hour (dt : datetime) : Z := (dt mod US_PER_DAY) / (3600 * US_PER_SECOND).
Definition minute (dt : datetime) : Z :=
  ((dt mod US_PER_DAY) mod (3600 * US_PER_SECOND)) / (60 * US_PER_SECOND).

(** The datetime [k] whole seconds after [s]. *)
Definition plus_seconds (s : datetime) (k : Z) : datetime := s + k * US_PER_SECOND.

End PyTime.

Import PyTime.

(** ** scoreboard_cy.pyx: index conversions *)

(** [_total_seconds(td)]. *)
Definition _total_seconds (td : timedelta) : double :=
  (inject_Z (days td) * 86400 + inject_Z (seconds td)
   + inject_Z (microseconds td) / 1000000)%Q.

(** The line [idx = <int>(diff_seconds / <double>resolution)]. *)
Definition slot_quotient (diff_seconds : double) (resolution : Z) : option Z :=
  q ← double_div diff_seconds (double_of_int resolution);
  double_to_int q.

Definition date_to_idx_fast (date start_date : datetime) (resolution size : Z)
    (force_into_project : bool) : option Z :=
  let diff_seconds := _total_seconds (datetime_sub date start_date) in
  idx ← slot_quotient diff_seconds resolution;
  if force_into_project then
    if idx <? 0 then Some 0
    else if size <=? idx then Some (int_sub size 1)
    else Some idx
  else Some idx.

Definition idx_to_date_fast (idx : Z) (start_date : datetime) (resolution size : Z)
    (force_into_project : bool) (end_date : datetime) : datetime :=
  let convert :=
    let seconds := int_mul idx resolution in
    datetime_add start_date (timedelta_of_seconds seconds) in
  if force_into_project then
    if idx <? 0 then start_date
    else if size <=? idx then end_date
    else convert
  else convert.

(** ** The time utilities *)

Definition project_date_to_idx (date : datetime) (start : option datetime)
    (granularity : Z) : option Z :=
  match start with
  | None => Some 0
  | Some s =>
      let diff_seconds := total_seconds (datetime_sub date s) in
      slot_quotient diff_seconds granularity
  end.

Definition project_idx_to_date (idx : Z) (start : option datetime)
    (granularity : Z) : option datetime :=
  match start with
  | None => None
  | Some s =>
      let seconds := int_mul idx granularity in
      Some (datetime_add s (timedelta_of_seconds seconds))
  end.

Definition scoreboard_size (start end_ : option datetime) (granularity : Z)
    : option Z :=
  match start, end_ with
  | Some s, Some e =>
      let diff_seconds := total_seconds (datetime_sub e s) in
      q ← slot_quotient diff_seconds granularity;
      Some (int_add q 1)
  | _, _ => Some 0
  end.

Definition is_working_time_fast (slot_idx : Z) (start : option datetime)
    (granularity daily_start_hour daily_end_hour : Z) : bool :=
  match start with
  | None => false
  | Some s =>
      let seconds := int_mul slot_idx granularity in
      let dt := datetime_add s (timedelta_of_seconds seconds) in
      let weekday := weekday dt in
      if 5 <=? weekday then false
      else
        let hour := hour dt in
        if (hour <? daily_start_hour) || (daily_end_hour <=? hour) then false
        else true
  end.

(** ** The working-hours checks *)

(** A clock time [(h, m)] and an interval [((start_h, start_m), (end_h, end_m))]. *)
Definition clock : Type := (Z * Z)%type.
Definition interval : Type := (clock * clock)%type.

(** [h * 60 + m] on C ints. *)
Definition get_slot_minutes (hour minute : Z) : Z := int_add (int_mul hour 60) minute.

Definition start_minutes (iv : interval) : Z :=
  get_slot_minutes (fst (fst iv)) (snd (fst iv)).
Definition end_minutes (iv : interval) : Z :=
  get_slot_minutes (fst (snd iv)) (snd (snd iv)).

(** The first loop of [check_working_hours_fast]: does some interval of the
    slot's own weekday contain the slot? *)
Fixpoint scan_same_day (slot_minutes : Z) (intervals : list interval) : bool :=
  match intervals with
  | [] => false
  | iv :: rest =>
      let start_minutes := start_minutes iv in
      let end_minutes := end_minutes iv in
      if end_minutes <=? start_minutes then
        if (start_minutes <=? slot_minutes) || (slot_minutes <? end_minutes) then true
        else scan_same_day slot_minutes rest
      else
        if (start_minutes <=? slot_minutes) && (slot_minutes <? end_minutes) then true
        else scan_same_day slot_minutes rest
  end.

(** The second loop: does a cross-midnight interval of the previous weekday
    reach the slot? *)
Fixpoint scan_prev_day (slot_minutes : Z) (intervals : list interval) : bool :=
  match intervals with
  | [] => false
  | iv :: rest =>
      let start_minutes := start_minutes iv in
      let end_minutes := end_minutes iv in
      if (end_minutes <=? start_minutes) && (slot_minutes <? end_minutes) then true
      else scan_prev_day slot_minutes rest
  end.

(** The block after the first loop. *)
Definition cross_midnight_check (slot_minutes weekday : Z)
    (hours_dict : gmap Z (list interval)) (check_cross_midnight : bool) : bool :=
  if check_cross_midnight then
    let prev_weekday := int_rem (int_sub weekday 1) 7 in
    match hours_dict !! prev_weekday with
    | Some intervals => scan_prev_day slot_minutes intervals
    | None => false
    end
  else false.

Definition check_working_hours_fast (slot_minutes weekday : Z)
    (hours_dict : gmap Z (list interval)) (check_cross_midnight : bool) : bool :=
  match hours_dict !! weekday with
  | None =>
      if negb check_cross_midnight then false
      else cross_midnight_check slot_minutes weekday hours_dict check_cross_midnight
  | Some [] =>
      if negb check_cross_midnight then false
      else cross_midnight_check slot_minutes weekday hours_dict check_cross_midnight
  | Some intervals =>
      if scan_same_day slot_minutes intervals then true
      else cross_midnight_check slot_minutes weekday hours_dict check_cross_midnight
  end.

(** The accumulation loop of [calculate_daily_hours]. *)
Fixpoint sum_minutes (total_minutes : Z) (intervals : list interval) : Z :=
  match intervals with
  | [] => total_minutes
  | iv :: rest =>
      sum_minutes (int_add total_minutes (int_sub (end_minutes iv) (start_minutes iv))) rest
  end.

(** [return <float>total_minutes / 60.0]: the cast to [float], the division
    by the [double] 60.0 after promotion, the conversion to the [float]
    result. *)
Definition hours_of_minutes (total_minutes : Z) : spec_float :=
  float_of_double
    (double_divide (double_of_float (float_of_int total_minutes)) (double_of_Z 60)).

Definition calculate_daily_hours (intervals : list interval) : spec_float :=
  let total_minutes := sum_minutes 0 intervals in
  hours_of_minutes total_minutes.

(** [(dt.hour, dt.minute, dt.weekday())]. *)
Definition extract_time_components (dt : datetime) : Z * Z * Z :=
  (hour dt, minute dt, weekday dt).

(** ** scoreboard_cy.pyx: collect_intervals_fast *)

Section CollectIntervals.

(** The objects stored in scoreboard slots, and the interval objects
    [interval_class] builds.  A slot value is [None] for Python's [None]. *)
Context {V I : Type}.

Variable sb : list (option V).
Variables end_idx s_idx e_idx min_duration_slots : Z.
Variable start_date : datetime.
Variable resolution : Z.
Variable predicate : option V -> bool.
Variable interval_class : datetime -> datetime -> I.

Definition sb_len : Z := Z.of_nat (length sb).

(** [sb[idx] if idx < sb_len else None], for an index that is not negative. *)
Definition slot_value (idx : Z) : option V :=
  if idx <? sb_len then default None (sb !! Z.to_nat idx) else None.

(** [predicate(val) if idx < end_idx else False]. *)
Definition pred_at (idx : Z) : bool :=
  if idx <? end_idx then predicate (slot_value idx) else false.

(** [start_date + timedelta(seconds=i * resolution)]. *)
Definition slot_instant (i : Z) : datetime :=
  datetime_add start_date (timedelta_of_seconds (int_mul i resolution)).

(** The interval appended for a finished run: [start] clamped from below by
    [s_idx], the current index clamped from above by [e_idx]. *)
Definition make_interval (start idx : Z) : I :=
  let start := if start <? s_idx then s_idx else start in
  let current_idx := if e_idx <? idx then e_idx else idx in
  interval_class (slot_instant start) (slot_instant current_idx).

(** The [while idx <= end_idx] loop.  Bounds checks are off
    ([boundscheck=False], [wraparound=False]), so reading [sb[idx]] at a
    negative index has no defined result; that and an exhausted [fuel] are
    [None]. *)
Fixpoint scan (fuel : nat) (idx duration start : Z) (intervals : list I)
    : option (list I) :=
  match fuel with
  | O => None
  | S fuel' =>
      if idx <=? end_idx then
        if (idx <? sb_len) && (idx <? 0) then None
        else if pred_at idx then
          let start := if start =? 0 then idx else start in
          scan fuel' (int_add idx 1) (int_add duration 1) start intervals
        else if 0 <? duration then
          let intervals :=
            if min_duration_slots <=? duration
            then intervals ++ [make_interval start idx]
            else intervals in
          scan fuel' (int_add idx 1) 0 0 intervals
        else scan fuel' (int_add idx 1) duration start intervals
      else Some intervals
  end.

End CollectIntervals.

(** [size] is a parameter that the body never reads.  The loop runs
    [end_idx - start_idx + 1] times and tests its condition once more. *)
Definition collect_intervals_fast {V I : Type} (sb : list (option V))
    (start_idx end_idx s_idx e_idx min_duration_slots size : Z)
    (start_date : datetime) (resolution : Z)
    (predicate : option V -> bool) (interval_class : datetime -> datetime -> I)
    : option (list I) :=
  let intervals := [] in
  let duration := 0 in
  let start := 0 in
  let idx := start_idx in
  scan sb end_idx s_idx e_idx min_duration_slots start_date resolution
    predicate interval_class
    (S (Z.to_nat (end_idx - start_idx + 1))) idx duration start intervals.

(** * What the specification says

    The vocabulary of the statements below, in the specification's words,
    and the data of the examples. *)

(** ** The time grid *)

(** What the specification writes for the grid, word for word:
    [index(t) = floor((t - project_start) / resolution)] and
    [size = ceil((end - start) / resolution) + 1], on microsecond instants. *)
Definition spec_index (t project_start : datetime) (resolution : Z) : Z :=
  (t - project_start) / (resolution * US_PER_SECOND).

Definition spec_size (project_start project_end : datetime) (resolution : Z) : Z :=
  - ((- (project_end - project_start)) / (resolution * US_PER_SECOND)) + 1.

(** Monday 2025-09-01T00:00, the project start of the airport test data, and
    Monday 2000-01-03T00:00. *)
Definition monday_2025_09_01 : datetime := 739494 * US_PER_DAY.
Definition monday_2000_01_03 : datetime := 730121 * US_PER_DAY.

(** ** The weekly template *)

(** Minutes from midnight of a clock time, as a mathematical integer. *)
Definition clock_minutes (c : clock) : Z := fst c * 60 + snd c.

(** End minus start of an interval, in minutes, as a mathematical integer. *)
Definition span (iv : interval) : Z :=
  clock_minutes (snd iv) - clock_minutes (fst iv).

Definition total_span (intervals : list interval) : Z :=
  foldr (fun iv acc => span iv + acc) 0 intervals.

Definition crosses_midnight (iv : interval) : Prop :=
  clock_minutes (snd iv) <= clock_minutes (fst iv).

(** The minutes an interval really covers: a cross-midnight interval runs
    from its start to midnight and from midnight to its end. *)
Definition covered_minutes (iv : interval) : Z :=
  if clock_minutes (snd iv) <=? clock_minutes (fst iv)
  then (1440 - clock_minutes (fst iv)) + clock_minutes (snd iv)
  else span iv.

Definition covered_total (intervals : list interval) : Z :=
  foldr (fun iv acc => covered_minutes iv + acc) 0 intervals.

(** The night shift of the airport test data, 22:00-06:00. *)
Definition night_shift : interval := ((22, 0), (6, 0)).

(** The slot at minute [m] of a day lies in the interval [iv] of that day,
    as the first loop of [check_working_hours_fast] tests it. *)
Definition same_day_hit (m : Z) (iv : interval) : Prop :=
  (end_minutes iv <= start_minutes iv
   /\ (start_minutes iv <= m \/ m < end_minutes iv))
  \/ (start_minutes iv < end_minutes iv
      /\ start_minutes iv <= m < end_minutes iv).

(** The slot at minute [m] lies in the part after midnight of the interval
    [iv] of the day before, as the second loop tests it. *)
Definition prev_day_hit (m : Z) (iv : interval) : Prop :=
  end_minutes iv <= start_minutes iv /\ m < end_minutes iv.

(** The template with the one interval [a]:00 - [b]:00 on Monday to Friday. *)
Definition mon_fri_template (a b : Z) : gmap Z (list interval) :=
  <[0 := [((a, 0), (b, 0))]]> (<[1 := [((a, 0), (b, 0))]]>
  (<[2 := [((a, 0), (b, 0))]]> (<[3 := [((a, 0), (b, 0))]]>
  (<[4 := [((a, 0), (b, 0))]]> ∅)))).

(** A day's intervals as the data model wants them: in order, each ending
    after it starts, none starting before the one before it ends, all within
    [lo .. 1440] minutes. *)
Fixpoint ordered_day (lo : Z) (intervals : list interval) : Prop :=
  match intervals with
  | [] => lo <= 1440
  | iv :: rest =>
      lo <= clock_minutes (fst iv)
      /\ clock_minutes (fst iv) < clock_minutes (snd iv)
      /\ ordered_day (clock_minutes (snd iv)) rest
  end.

(** What single precision keeps of a minute total [t]: the hours returned
    are a number, within a relative error of 2^-24 of [t / 60], equal to
    [t / 60] when [t] is a multiple of a quarter of an hour, and less than
    24 hours above [t / 60]. *)
Definition hours_accurate (t : Z) : bool :=
  let v := float_value (hours_of_minutes t) in
  is_number (hours_of_minutes t)
  && Qle_bool (Qabs (60 * v - inject_Z t) * inject_Z (2 ^ 24)) (Qabs (inject_Z t))
  && (if t mod 15 =? 0 then Qeq_bool (60 * v) (inject_Z t) else true)
  && negb (Qle_bool (inject_Z (t + 1440)) (60 * v)).

(** The same for a total [t] within a day: the hours returned are a number
    between 0 and 24, within a relative error of 2^-24 of [t / 60], equal to
    it when [t] is a multiple of 15. *)
Definition hours_day_bounds (t : Z) : bool :=
  let v := float_value (hours_of_minutes t) in
  is_number (hours_of_minutes t)
  && Qle_bool 0 v && Qle_bool v 24
  && Qle_bool (Qabs (60 * v - inject_Z t) * inject_Z (2 ^ 24)) (inject_Z t)
  && (if t mod 15 =? 0 then Qeq_bool (60 * v) (inject_Z t) else true).

(** The number of minutes [m] among the [n] minutes from [lo] on for which
    [working m] holds. *)
Fixpoint count_minutes (working : Z -> bool) (lo : Z) (n : nat) : Z :=
  match n with
  | O => 0
  | S n' => (if working lo then 1 else 0) + count_minutes working (lo + 1) n'
  end.

(** ** Runs of matching slots *)

Section ScanVocabulary.

Context {V I : Type}.
Variable sb : list (option V).
Variables start_idx end_idx s_idx e_idx min_duration_slots : Z.
Variable start_date : datetime.
Variable resolution : Z.
Variable predicate : option V -> bool.
Variable interval_class : datetime -> datetime -> I.

(** Slots [a .. b-1] are a maximal run of matching slots of the scan
    window: the window is [start_idx .. end_idx - 1], the slot at [end_idx]
    never counts as matching. *)
Definition maximal_run (a b : Z) : Prop :=
  start_idx <= a /\ a < b <= end_idx
  /\ (forall j, a <= j < b -> predicate (slot_value sb j) = true)
  /\ (a = start_idx \/ predicate (slot_value sb (a - 1)) = false)
  /\ (b = end_idx \/ predicate (slot_value sb b) = false).

(** The value of [start] when a run that began at [a] ends at [b]: 0 stands
    for "no run yet", so a run that begins at slot 0 is taken to begin at
    its second slot. *)
Definition recorded_start (a b : Z) : Z :=
  if (a =? 0) && (2 <=? b - a) then 1 else a.

(** What the loop appends for a run [a .. b-1]. *)
Definition emitted (x : I) : Prop :=
  exists a b,
    maximal_run a b /\ min_duration_slots <= b - a
    /\ x = interval_class
             (slot_instant start_date resolution (Z.max (recorded_start a b) s_idx))
             (slot_instant start_date resolution (Z.min b e_idx)).

(** The loop invariant on [idx], [duration] and [start]. *)
Definition scan_inv (idx duration start : Z) : Prop :=
  start_idx <= idx <= end_idx + 1
  /\ 0 <= duration <= idx - start_idx
  /\ (duration = 0 -> start = 0)
  /\ (0 < duration -> start = recorded_start (idx - duration) idx)
  /\ (forall j, idx - duration <= j < idx -> pred_at sb end_idx predicate j = true)
  /\ (idx - duration = start_idx
      \/ pred_at sb end_idx predicate (idx - duration - 1) = false).

End ScanVocabulary.

(** A slot is busy when it holds a task and free when it holds [None]. *)
Definition busy (val : option unit) : bool :=
  match val with Some _ => true | None => false end.

(** The index pair of an interval built with [pair], in slots. *)
Definition spanned_slots (iv : datetime * datetime) (resolution : Z) : Z :=
  (snd iv - fst iv) / (resolution * US_PER_SECOND).

(** Seven hourly slots, busy from 01:00 to 06:00. *)
Definition busy_one_to_six : list (option unit) :=
  [None; Some (); Some (); Some (); Some (); Some (); None].

(** * Properties *)

(** Case analysis on every integer comparison of the goal. *)
Ltac case_Zb :=
  repeat match goal with
    | |- context [Z.eqb ?x ?y] => destruct (Z.eqb_spec x y)
    | |- context [Z.leb ?x ?y] => destruct (Z.leb_spec x y)
    | |- context [Z.ltb ?x ?y] => destruct (Z.ltb_spec x y)
    | H : context [Z.eqb ?x ?y] |- _ => destruct (Z.eqb_spec x y)
    | H : context [Z.leb ?x ?y] |- _ => destruct (Z.leb_spec x y)
    | H : context [Z.ltb ?x ?y] |- _ => destruct (Z.ltb_spec x y)
    end; simpl in *.

(** ** C arithmetic *)

Lemma wrap32_id z : in_int z -> wrap32 z = z.
Proof.
  unfold in_int, INT_MIN, INT_MAX, wrap32. intros Hz.
  rewrite Z.mod_small; lia.
Qed.

Lemma wrap32_in_int z : in_int (wrap32 z).
Proof.
  unfold in_int, INT_MIN, INT_MAX, wrap32.
  pose proof (Z.mod_pos_bound (z + 2 ^ 31) (2 ^ 32) ltac:(lia)). lia.
Qed.

(** Wrapping an operand first does not change a wrapped sum. *)
Lemma wrap32_add_l a b : wrap32 (wrap32 a + b) = wrap32 (a + b).
Proof.
  unfold wrap32. f_equal.
  replace ((a + 2 ^ 31) mod 2 ^ 32 - 2 ^ 31 + b + 2 ^ 31)
    with ((a + 2 ^ 31) mod 2 ^ 32 + b) by lia.
  rewrite Zplus_mod_idemp_l. f_equal. lia.
Qed.

Lemma wrap32_add_r a b : wrap32 (a + wrap32 b) = wrap32 (a + b).
Proof. rewrite Z.add_comm, wrap32_add_l. f_equal. lia. Qed.

Lemma wrap32_sub_lr a b : wrap32 (wrap32 a - wrap32 b) = wrap32 (a - b).
Proof.
  unfold wrap32. f_equal.
  replace ((a + 2 ^ 31) mod 2 ^ 32 - 2 ^ 31 - ((b + 2 ^ 31) mod 2 ^ 32 - 2 ^ 31) + 2 ^ 31)
    with (((a + 2 ^ 31) mod 2 ^ 32 - (b + 2 ^ 31) mod 2 ^ 32) + 2 ^ 31) by lia.
  rewrite <- Zplus_mod_idemp_l, <- Zminus_mod, Zplus_mod_idemp_l.
  f_equal. lia.
Qed.

Lemma in_intb_true z : in_int z -> in_intb z = true.
Proof.
  unfold in_int, in_intb. intros [H1 H2].
  apply andb_true_intro; split; apply Z.leb_le; assumption.
Qed.

Lemma in_intb_false z : ~ in_int z -> in_intb z = false.
Proof.
  unfold in_int, in_intb. intros H.
  destruct (Z.leb_spec INT_MIN z), (Z.leb_spec z INT_MAX); simpl; try reflexivity.
  exfalso; apply H; split; assumption.
Qed.

Lemma get_slot_minutes_exact h m :
  in_int (h * 60 + m) -> get_slot_minutes h m = h * 60 + m.
Proof.
  intros H. unfold get_slot_minutes, int_add, int_mul.
  rewrite wrap32_add_l. apply wrap32_id, H.
Qed.

(** ** Truncation of rationals *)

(** Truncation is floor on the non-negative side and ceiling on the other. *)
Lemma quot_floor_ceiling a b :
  0 < b -> Z.quot a b = if 0 <=? a then a / b else - ((- a) / b).
Proof.
  intros Hb. destruct (Z.leb_spec 0 a) as [Ha | Ha].
  - apply Z.quot_div_nonneg; lia.
  - replace a with (- (- a)) at 1 by lia.
    rewrite Z.quot_opp_l by lia.
    rewrite Z.quot_div_nonneg by lia. reflexivity.
Qed.

Lemma Qtrunc_floor_ceiling q :
  Qtrunc q = if Qle_bool 0 q then Qfloor q else Qceiling q.
Proof.
  destruct q as [n d]. unfold Qtrunc, Qceiling, Qfloor, Qle_bool. simpl.
  rewrite quot_floor_ceiling by lia.
  replace (0 * Z.pos d) with 0 by lia. rewrite Z.mul_1_r. reflexivity.
Qed.

Lemma Qtrunc_comp p q : p == q -> Qtrunc p = Qtrunc q.
Proof.
  intros E. rewrite !Qtrunc_floor_ceiling.
  assert (Hb : Qle_bool 0 p = Qle_bool 0 q).
  { destruct (Qle_bool 0 p) eqn:Hp, (Qle_bool 0 q) eqn:Hq; try reflexivity.
    - apply Qle_bool_iff in Hp. rewrite E in Hp. apply Qle_bool_iff in Hp. congruence.
    - apply Qle_bool_iff in Hq. rewrite <- E in Hq. apply Qle_bool_iff in Hq. congruence. }
  rewrite Hb. destruct (Qle_bool 0 q).
  - apply Qfloor_comp, E.
  - apply Qceiling_comp, E.
Qed.

Lemma Qtrunc_div a b :
  0 < b -> Qtrunc (inject_Z a / inject_Z b)%Q = Z.quot a b.
Proof.
  intros Hb. destruct b as [| b | b]; try lia.
  rewrite <- (Qtrunc_comp _ _ (Qmake_Qdiv a b)). reflexivity.
Qed.

(** ** Time deltas *)

Lemma timedelta_us_of_us us : timedelta_us (timedelta_of_us us) = us.
Proof.
  unfold timedelta_us, timedelta_of_us, US_PER_DAY, US_PER_SECOND. simpl.
  pose proof (Z.div_mod us (86400 * 1000000) ltac:(lia)) as H1.
  pose proof (Z.div_mod (us mod (86400 * 1000000)) 1000000 ltac:(lia)) as H2.
  assert (H3 : (us mod (86400 * 1000000)) mod 1000000 = us mod 1000000).
  { apply Z.mod_mod_divide. exists 86400. reflexivity. }
  lia.
Qed.

Lemma timedelta_us_of_seconds s :
  timedelta_us (timedelta_of_seconds s) = s * US_PER_SECOND.
Proof.
  unfold timedelta_us, timedelta_of_seconds, US_PER_SECOND. simpl.
  pose proof (Z.div_mod s 86400 ltac:(lia)). lia.
Qed.

Lemma datetime_add_seconds s k :
  datetime_add s (timedelta_of_seconds k) = plus_seconds s k.
Proof. unfold datetime_add, plus_seconds. rewrite timedelta_us_of_seconds. reflexivity. Qed.

(** Both ways of reading a timedelta in seconds give [us / 10^6]. *)
Lemma _total_seconds_us td :
  _total_seconds td == inject_Z (timedelta_us td) / inject_Z US_PER_SECOND.
Proof.
  unfold _total_seconds, timedelta_us, US_PER_SECOND.
  repeat (rewrite inject_Z_plus || rewrite inject_Z_mult).
  change (inject_Z 1000000) with (1000000 # 1).
  change (inject_Z 86400) with (86400 # 1). field.
Qed.

Lemma slot_quotient_comp p q r :
  p == q -> slot_quotient p r = slot_quotient q r.
Proof.
  intros E. unfold slot_quotient, double_div.
  destruct (Qeq_bool (double_of_int r) 0); simpl; [reflexivity |].
  unfold double_to_int.
  assert (Ht : Qtrunc (p / double_of_int r)%Q = Qtrunc (q / double_of_int r)%Q).
  { apply Qtrunc_comp. rewrite E. reflexivity. }
  rewrite Ht. reflexivity.
Qed.

(** The slot quotient of a difference of [us] microseconds: truncation toward
    zero of [us / (10^6 * r)]. *)
Lemma slot_quotient_us us r :
  0 < r ->
  slot_quotient (inject_Z us / inject_Z US_PER_SECOND)%Q r =
  let t := Z.quot us (US_PER_SECOND * r) in
  if in_intb t then Some t else None.
Proof.
  intros Hr. unfold slot_quotient, double_div, double_of_int.
  assert (Hnz : Qeq_bool (inject_Z r) 0 = false).
  { destruct (Qeq_bool (inject_Z r) 0) eqn:E; [| reflexivity].
    apply Qeq_bool_iff in E. unfold Qeq in E. simpl in E. lia. }
  rewrite Hnz. simpl. unfold double_to_int.
  assert (Ht : Qtrunc (inject_Z us / inject_Z US_PER_SECOND / inject_Z r)%Q
               = Z.quot us (US_PER_SECOND * r)).
  { rewrite <- Qtrunc_div by (unfold US_PER_SECOND; lia).
    apply Qtrunc_comp. rewrite inject_Z_mult. field.
    split; unfold Qeq, US_PER_SECOND; simpl; lia. }
  rewrite Ht. reflexivity.
Qed.

(** For a whole number [k] of seconds the quotient is [k] by [r], truncated. *)
Lemma slot_quotient_seconds k r :
  0 < r -> in_int (Z.quot k r) ->
  slot_quotient (inject_Z (k * US_PER_SECOND) / inject_Z US_PER_SECOND)%Q r
  = Some (Z.quot k r).
Proof.
  intros Hr Hin. rewrite slot_quotient_us by assumption. simpl.
  rewrite (Z.mul_comm k), Z.quot_mul_cancel_l by (unfold US_PER_SECOND; lia).
  rewrite in_intb_true by assumption. reflexivity.
Qed.

(** ** The time grid *)

Lemma spec_index_seconds s k r :
  0 < r -> spec_index (plus_seconds s k) s r = k / r.
Proof.
  intros Hr. unfold spec_index, plus_seconds.
  replace (s + k * US_PER_SECOND - s) with (k * US_PER_SECOND) by lia.
  apply Z.div_mul_cancel_r; unfold US_PER_SECOND; lia.
Qed.

Lemma date_to_idx_fast_seconds s k r size :
  0 < r -> in_int (Z.quot k r) ->
  date_to_idx_fast (plus_seconds s k) s r size false = Some (Z.quot k r).
Proof.
  intros Hr Hin. unfold date_to_idx_fast.
  rewrite (slot_quotient_comp _ _ r (_total_seconds_us _)).
  unfold datetime_sub, plus_seconds. rewrite timedelta_us_of_us.
  replace (s + k * US_PER_SECOND - s) with (k * US_PER_SECOND) by lia.
  rewrite slot_quotient_seconds by assumption. reflexivity.
Qed.

Lemma project_date_to_idx_seconds s k r :
  0 < r -> in_int (Z.quot k r) ->
  project_date_to_idx (plus_seconds s k) (Some s) r = Some (Z.quot k r).
Proof.
  intros Hr Hin. unfold project_date_to_idx, total_seconds, datetime_sub, plus_seconds.
  rewrite timedelta_us_of_us.
  replace (s + k * US_PER_SECOND - s) with (k * US_PER_SECOND) by lia.
  apply slot_quotient_seconds; assumption.
Qed.

(** C3, as stated, fails: one second before the project start, at a
    resolution of one hour, both conversions return slot 0, and the floor of
    the specification is -1. *)
Lemma date_to_idx_floor_counterexample :
  let s := monday_2025_09_01 in
  let t := plus_seconds s (-1) in
  date_to_idx_fast t s 3600 1465 false = Some 0
  /\ project_date_to_idx t (Some s) 3600 = Some 0
  /\ spec_index t s 3600 = -1.
Proof. vm_compute. repeat split; reflexivity. Qed.

(** C3, amended: for a positive resolution [r] and an instant [k] whole
    seconds from the project start (before, at or after it) whose quotient
    fits a C int, the unclamped index of [date_to_idx_fast] and of
    [project_date_to_idx] is [k / r] rounded toward zero.  This is the floor
    of the specification when the instant is not before the start or [k] is
    a multiple of [r], and one more than the floor otherwise. *)
Theorem date_to_idx_truncates (s : datetime) (k r size : Z) :
  0 < r -> in_int (Z.quot k r) ->
  let t := plus_seconds s k in
  date_to_idx_fast t s r size false = Some (Z.quot k r)
  /\ project_date_to_idx t (Some s) r = Some (Z.quot k r)
  /\ (0 <= k \/ k mod r = 0 -> Z.quot k r = spec_index t s r)
  /\ (k < 0 -> k mod r <> 0 -> Z.quot k r = spec_index t s r + 1).
Proof.
  intros Hr Hin t. subst t.
  rewrite spec_index_seconds by assumption.
  split; [apply date_to_idx_fast_seconds; assumption |].
  split; [apply project_date_to_idx_seconds; assumption |].
  pose proof (Z.div_mod k r ltac:(lia)) as Hdm.
  pose proof (Z.mod_pos_bound k r Hr) as Hmb.
  split.
  - intros [Hk | Hk].
    + apply Z.quot_div_nonneg; lia.
    + rewrite quot_floor_ceiling by assumption.
      destruct (Z.leb_spec 0 k); [reflexivity |].
      assert (E : k = (k / r) * r) by lia.
      rewrite E at 1. rewrite <- Z.mul_opp_l, Z.div_mul by lia. lia.
  - intros Hk Hm. rewrite quot_floor_ceiling by assumption.
    destruct (Z.leb_spec 0 k); [lia |].
    assert (E : - k = (- (k / r) - 1) * r + (r - k mod r)) by nia.
    rewrite E, Z.div_add_l by lia.
    rewrite (Z.div_small (r - k mod r) r) by lia. lia.
Qed.

Lemma date_to_idx_truncates_witness :
  date_to_idx_fast (plus_seconds monday_2025_09_01 (-5400)) monday_2025_09_01
    3600 1465 false = Some (Z.quot (-5400) 3600).
Proof.
  apply (date_to_idx_truncates monday_2025_09_01 (-5400) 3600 1465);
    [lia | vm_compute; split; discriminate].
Defined.

(** C4: with the clamp flag set and a size of at least one slot, the index
    lies in [0, size - 1]: a negative raw index becomes 0, a raw index of at
    least [size] becomes [size - 1], any other is kept; without the flag the
    raw index is returned as it is.  The raw index is the value of the cast
    [<int>(diff_seconds / resolution)]. *)
Theorem date_to_idx_fast_clamp (date s : datetime) (r size raw : Z) :
  1 <= size -> in_int size ->
  slot_quotient (_total_seconds (datetime_sub date s)) r = Some raw ->
  date_to_idx_fast date s r size false = Some raw
  /\ exists idx,
       date_to_idx_fast date s r size true = Some idx
       /\ 0 <= idx <= size - 1
       /\ (raw < 0 -> idx = 0)
       /\ (size <= raw -> idx = size - 1)
       /\ (0 <= raw < size -> idx = raw).
Proof.
  intros Hsize Hin Hraw. unfold date_to_idx_fast. rewrite Hraw. simpl.
  split; [reflexivity |].
  assert (Hsub : int_sub size 1 = size - 1).
  { apply wrap32_id. unfold in_int, INT_MIN, INT_MAX in *. lia. }
  destruct (Z.ltb_spec raw 0) as [Hneg | Hnn].
  - exists 0. repeat split; lia.
  - destruct (Z.leb_spec size raw) as [Hge | Hlt].
    + exists (size - 1). rewrite Hsub. repeat split; lia.
    + exists raw. repeat split; lia.
Qed.

Lemma date_to_idx_fast_clamp_witness :
  date_to_idx_fast (plus_seconds monday_2025_09_01 (-5400)) monday_2025_09_01
    3600 1465 false = Some (-1)
  /\ exists idx,
       date_to_idx_fast (plus_seconds monday_2025_09_01 (-5400)) monday_2025_09_01
         3600 1465 true = Some idx
       /\ 0 <= idx <= 1465 - 1
       /\ (-1 < 0 -> idx = 0)
       /\ (1465 <= -1 -> idx = 1465 - 1)
       /\ (0 <= -1 < 1465 -> idx = -1).
Proof.
  apply (date_to_idx_fast_clamp (plus_seconds monday_2025_09_01 (-5400))
           monday_2025_09_01 3600 1465 (-1));
    [lia | vm_compute; split; discriminate | vm_compute; reflexivity].
Defined.

(** C5, as stated, fails: a project of an hour and a half at a resolution of
    one hour has two slots, and the ceiling of the specification gives three. *)
Lemma scoreboard_size_ceil_counterexample :
  let s := monday_2025_09_01 in
  let e := plus_seconds s 5400 in
  scoreboard_size (Some s) (Some e) 3600 = Some 2
  /\ spec_size s e 3600 = 3.
Proof. vm_compute. split; reflexivity. Qed.

(** C5, amended: for a positive resolution [r] and a project end [k >= 0]
    whole seconds after the start, the size is [floor(k / r) + 1] (as long as
    that fits a C int).  This is [ceil(k / r) + 1] exactly when [k] is a
    multiple of [r]; otherwise it is [ceil(k / r)], one less. *)
Theorem scoreboard_size_floor (s : datetime) (k r : Z) :
  0 <= k -> 0 < r -> in_int (k / r + 1) ->
  let e := plus_seconds s k in
  scoreboard_size (Some s) (Some e) r = Some (k / r + 1)
  /\ (k mod r = 0 -> k / r + 1 = spec_size s e r)
  /\ (k mod r <> 0 -> k / r + 1 = spec_size s e r - 1).
Proof.
  intros Hk Hr Hin e. subst e.
  assert (Hq : Z.quot k r = k / r) by (apply Z.quot_div_nonneg; lia).
  assert (Hin' : in_int (Z.quot k r)).
  { rewrite Hq. pose proof (Z.div_pos k r Hk Hr).
    unfold in_int, INT_MIN, INT_MAX in *. lia. }
  split.
  - unfold scoreboard_size, total_seconds, datetime_sub, plus_seconds.
    rewrite timedelta_us_of_us.
    replace (s + k * US_PER_SECOND - s) with (k * US_PER_SECOND) by lia.
    rewrite slot_quotient_seconds by assumption. simpl.
    rewrite Hq. unfold int_add. rewrite wrap32_id by assumption. reflexivity.
  - unfold spec_size, plus_seconds.
    replace (s + k * US_PER_SECOND - s) with (k * US_PER_SECOND) by lia.
    rewrite <- Z.mul_opp_l.
    rewrite Z.div_mul_cancel_r by (unfold US_PER_SECOND; lia).
    pose proof (Z.div_mod k r ltac:(lia)) as Hdm.
    pose proof (Z.mod_pos_bound k r Hr) as Hmb.
    split; intros Hm.
    + assert (E : - k = (- (k / r)) * r) by nia.
      rewrite E, Z.div_mul by lia. lia.
    + assert (E : - k = (- (k / r) - 1) * r + (r - k mod r)) by nia.
      rewrite E, Z.div_add_l by lia.
      rewrite (Z.div_small (r - k mod r) r) by lia. lia.
Qed.

Lemma scoreboard_size_floor_witness :
  scoreboard_size (Some monday_2025_09_01)
    (Some (plus_seconds monday_2025_09_01 5400)) 3600 = Some (5400 / 3600 + 1).
Proof.
  apply (scoreboard_size_floor monday_2025_09_01 5400 3600);
    [lia | lia | vm_compute; split; discriminate].
Defined.

(** C7, as stated, fails: in a project that starts on 2000-01-03 with hourly
    slots, slot 600000 of 613585 lies 68 years after the start; the product
    [idx * resolution] does not fit the C int [seconds], and the date returned
    lies before the project start. *)
Lemma idx_to_date_overflow_counterexample :
  let s := monday_2000_01_03 in
  0 <= 600000 < 613585
  /\ idx_to_date_fast 600000 s 3600 613585 true (plus_seconds s 2208902400)
     <> plus_seconds s (600000 * 3600)
  /\ project_idx_to_date 600000 (Some s) 3600 <> Some (plus_seconds s (600000 * 3600))
  /\ idx_to_date_fast 600000 s 3600 613585 true (plus_seconds s 2208902400) < s.
Proof. vm_compute. repeat split; discriminate. Qed.

(** C7, amended: for a positive resolution [r] and a slot index [0 <= i < size]
    with [i * r] at most [INT_MAX], [idx_to_date_fast] and
    [project_idx_to_date] return the project start plus [i * r] seconds, and
    the unclamped index of that instant is [i] again. *)
Theorem idx_to_date_roundtrip (s e : datetime) (i r size : Z) (force : bool) :
  0 <= i < size -> 0 < r -> i * r <= INT_MAX ->
  let t := plus_seconds s (i * r) in
  idx_to_date_fast i s r size force e = t
  /\ project_idx_to_date i (Some s) r = Some t
  /\ date_to_idx_fast t s r size false = Some i
  /\ project_date_to_idx t (Some s) r = Some i.
Proof.
  intros Hi Hr Hmax t. subst t.
  assert (Hmul : int_mul i r = i * r).
  { apply wrap32_id. unfold in_int, INT_MIN, INT_MAX in *. nia. }
  assert (Hq : Z.quot (i * r) r = i) by (apply Z.quot_mul; lia).
  assert (Hin : in_int (Z.quot (i * r) r)).
  { rewrite Hq. unfold in_int, INT_MIN, INT_MAX in *. nia. }
  repeat split.
  - unfold idx_to_date_fast. rewrite Hmul, datetime_add_seconds.
    destruct force; [| reflexivity].
    destruct (Z.ltb_spec i 0); [lia |].
    destruct (Z.leb_spec size i); [lia | reflexivity].
  - unfold project_idx_to_date. rewrite Hmul, datetime_add_seconds. reflexivity.
  - rewrite date_to_idx_fast_seconds by assumption. rewrite Hq. reflexivity.
  - rewrite project_date_to_idx_seconds by assumption. rewrite Hq. reflexivity.
Qed.

Lemma idx_to_date_roundtrip_witness :
  idx_to_date_fast 8 monday_2025_09_01 3600 1465 true
    (plus_seconds monday_2025_09_01 5270400)
  = plus_seconds monday_2025_09_01 (8 * 3600).
Proof.
  apply (idx_to_date_roundtrip monday_2025_09_01
           (plus_seconds monday_2025_09_01 5270400) 8 3600 1465 true);
    [lia | lia | vm_compute; discriminate].
Defined.

(** ** The default calendar *)

(** The calendar of the model on the airport project, which starts on Monday
    2025-09-01 with hourly slots and works from 9 to 17: slot 9 is Monday
    09:00, slot 17 is Monday 17:00, slot 130 is Saturday 10:00. *)
Example weekday_of_project_start : weekday monday_2025_09_01 = 0.
Proof. reflexivity. Qed.

Example monday_nine_is_working :
  is_working_time_fast 9 (Some monday_2025_09_01) 3600 9 17 = true.
Proof. reflexivity. Qed.

Example monday_seventeen_is_not_working :
  is_working_time_fast 17 (Some monday_2025_09_01) 3600 9 17 = false.
Proof. reflexivity. Qed.

Example saturday_ten_is_not_working :
  weekday (plus_seconds monday_2025_09_01 (130 * 3600)) = 5
  /\ hour (plus_seconds monday_2025_09_01 (130 * 3600)) = 10
  /\ is_working_time_fast 130 (Some monday_2025_09_01) 3600 9 17 = false.
Proof. repeat split. Qed.

(** C9, as stated, fails: in the hourly project that starts on Monday
    2000-01-03, slot 596538 is Saturday 2068-01-21 18:00 (the date that
    [date_to_idx_fast] maps to this slot), and with working hours 9 to 17 the
    slot is reported working: [slot_idx * granularity] does not fit the C int
    [seconds], and the date examined is a Wednesday at 11:00. *)
Lemma is_working_time_fast_overflow_counterexample :
  let s := monday_2000_01_03 in
  let slot_date := plus_seconds s (596538 * 3600) in
  date_to_idx_fast slot_date s 3600 613585 true = Some 596538
  /\ weekday slot_date = 5 /\ hour slot_date = 18
  /\ is_working_time_fast 596538 (Some s) 3600 9 17 = true.
Proof. vm_compute. repeat split. Qed.

(** C9, amended: [is_working_time_fast] is [False] whenever the project
    start is [None]; for a slot whose offset [slot_idx * granularity] fits a
    C int it depends only on the weekday and the whole hour of the slot's
    datetime [start + slot_idx * granularity] seconds: it is [True] exactly
    when the weekday is Monday to Friday and
    [daily_start_hour <= hour < daily_end_hour], [False] for every slot on
    Saturday or Sunday, and the same for two such slots that agree on weekday
    and hour, whatever their minutes. *)
Theorem is_working_time_fast_slot_day (s : datetime)
    (slot_idx granularity daily_start_hour daily_end_hour : Z) :
  in_int (slot_idx * granularity) ->
  let dt := plus_seconds s (slot_idx * granularity) in
  (forall i g, is_working_time_fast i None g daily_start_hour daily_end_hour = false)
  /\ (is_working_time_fast slot_idx (Some s) granularity
        daily_start_hour daily_end_hour = true
      <-> 0 <= weekday dt <= 4 /\ daily_start_hour <= hour dt < daily_end_hour)
  /\ (weekday dt = 5 \/ weekday dt = 6 ->
      is_working_time_fast slot_idx (Some s) granularity
        daily_start_hour daily_end_hour = false)
  /\ (forall slot_idx' s' granularity',
       in_int (slot_idx' * granularity') ->
       let dt' := plus_seconds s' (slot_idx' * granularity') in
       weekday dt' = weekday dt -> hour dt' = hour dt ->
       is_working_time_fast slot_idx' (Some s') granularity'
         daily_start_hour daily_end_hour
       = is_working_time_fast slot_idx (Some s) granularity
           daily_start_hour daily_end_hour).
Proof.
  intros Hin dt.
  assert (Hdate : forall i s0 g, in_int (i * g) ->
            is_working_time_fast i (Some s0) g daily_start_hour daily_end_hour
            = (if 5 <=? weekday (plus_seconds s0 (i * g)) then false
               else if (hour (plus_seconds s0 (i * g)) <? daily_start_hour)
                       || (daily_end_hour <=? hour (plus_seconds s0 (i * g)))
                    then false else true)).
  { intros i s0 g Hi. unfold is_working_time_fast, int_mul.
    rewrite wrap32_id by assumption. rewrite datetime_add_seconds. reflexivity. }
  assert (Hwd : 0 <= weekday dt < 7) by (apply Z.mod_pos_bound; lia).
  split; [reflexivity |].
  rewrite (Hdate _ _ _ Hin). fold dt.
  split; [| split].
  - case_Zb; split; intros; try discriminate; try lia; reflexivity.
  - intros Hd. case_Zb; try reflexivity; lia.
  - intros i' s' g' Hi' dt' Hw Hh. rewrite (Hdate _ _ _ Hi'). fold dt'.
    rewrite Hw, Hh. reflexivity.
Qed.

Lemma is_working_time_fast_slot_day_witness :
  is_working_time_fast 130 (Some monday_2025_09_01) 3600 9 17 = true
  <-> 0 <= weekday (plus_seconds monday_2025_09_01 (130 * 3600)) <= 4
      /\ 9 <= hour (plus_seconds monday_2025_09_01 (130 * 3600)) < 17.
Proof.
  apply (is_working_time_fast_slot_day monday_2025_09_01 130 3600 9 17).
  vm_compute. split; discriminate.
Defined.

(** ** The weekly template *)

Lemma start_minutes_exact iv :
  in_int (clock_minutes (fst iv)) -> start_minutes iv = clock_minutes (fst iv).
Proof. apply get_slot_minutes_exact. Qed.

Lemma end_minutes_exact iv :
  in_int (clock_minutes (snd iv)) -> end_minutes iv = clock_minutes (snd iv).
Proof. apply get_slot_minutes_exact. Qed.

(** The second loop finds a cross-midnight interval that reaches the slot. *)
Lemma scan_prev_day_true slot_minutes intervals :
  scan_prev_day slot_minutes intervals = true <->
  exists iv, iv ∈ intervals
             /\ end_minutes iv <= start_minutes iv /\ slot_minutes < end_minutes iv.
Proof.
  induction intervals as [| iv rest IH]; simpl.
  - split; [discriminate | intros (iv & Hin & _); inversion Hin].
  - destruct (Z.leb_spec (end_minutes iv) (start_minutes iv)) as [Hc | Hc];
      destruct (Z.ltb_spec slot_minutes (end_minutes iv)) as [Hs | Hs]; simpl.
    + split; [intros _ | reflexivity]. exists iv. split; [left | lia].
    + rewrite IH. split.
      * intros (iv' & Hin & H). exists iv'. split; [right; exact Hin | exact H].
      * intros (iv' & Hin & H). apply elem_of_cons in Hin as [-> | Hin]; [lia |].
        exists iv'. split; assumption.
    + rewrite IH. split.
      * intros (iv' & Hin & H). exists iv'. split; [right; exact Hin | exact H].
      * intros (iv' & Hin & H). apply elem_of_cons in Hin as [-> | Hin]; [lia |].
        exists iv'. split; assumption.
    + rewrite IH. split.
      * intros (iv' & Hin & H). exists iv'. split; [right; exact Hin | exact H].
      * intros (iv' & Hin & H). apply elem_of_cons in Hin as [-> | Hin]; [lia |].
        exists iv'. split; assumption.
Qed.

(** The previous weekday as the code computes it: Tuesday to Sunday step
    back by one; Monday gives -1, the C remainder of -1 by 7. *)
Lemma prev_weekday_c w :
  0 <= w <= 6 ->
  int_rem (int_sub w 1) 7 = if w =? 0 then -1 else w - 1.
Proof.
  intros Hw. unfold int_rem, int_sub.
  rewrite wrap32_id by (unfold in_int, INT_MIN, INT_MAX; lia).
  destruct (Z.eqb_spec w 0) as [-> | Hne]; [reflexivity |].
  apply Z.rem_small. lia.
Qed.

(** A weekday without a template, Tuesday to Sunday: the slot is working
    exactly when the check of the previous day is requested and a
    cross-midnight interval of the previous weekday reaches it. *)
Lemma check_working_hours_fast_no_entry m d
    (hours_dict : gmap Z (list interval)) (ccm : bool) :
  hours_dict !! d = None -> 1 <= d <= 6 ->
  check_working_hours_fast m d hours_dict ccm = true <->
  ccm = true /\ exists intervals iv,
    hours_dict !! (d - 1) = Some intervals /\ iv ∈ intervals
    /\ end_minutes iv <= start_minutes iv /\ m < end_minutes iv.
Proof.
  intros Hnone Hd. unfold check_working_hours_fast, cross_midnight_check.
  rewrite Hnone. destruct ccm; simpl.
  - rewrite prev_weekday_c by lia.
    destruct (Z.eqb_spec d 0); [lia |].
    destruct (hours_dict !! (d - 1)) as [ivs |] eqn:Hprev.
    + rewrite scan_prev_day_true. split.
      * intros (iv & H). split; [reflexivity |]. exists ivs, iv. split; [reflexivity | exact H].
      * intros (_ & ivs' & iv & Heq & H). injection Heq as <-. exists iv. exact H.
    + split; [discriminate | intros (_ & ivs' & iv & Heq & _); discriminate].
  - split; [discriminate | intros [H _]; discriminate].
Qed.

(** C6, the failing input: Monday has no template and Sunday has the
    interval 22:00-06:00.  At Monday 01:00 the previous weekday, (0 - 1) mod 7,
    is Sunday, whose interval crosses midnight and ends after the slot, yet
    the check of the previous day finds nothing: [(weekday - 1) % 7] is a C
    remainder and gives -1, which is no key of the template. *)
Theorem check_working_hours_fast_monday_after_sunday :
  let hours_dict : gmap Z (list interval) := {[ 6 := [((22, 0), (6, 0))] ]} in
  hours_dict !! 0 = None
  /\ (0 - 1) mod 7 = 6
  /\ hours_dict !! 6 = Some [((22, 0), (6, 0))]
  /\ end_minutes ((22, 0), (6, 0)) <= start_minutes ((22, 0), (6, 0))
  /\ 60 < end_minutes ((22, 0), (6, 0))
  /\ int_rem (int_sub 0 1) 7 = -1
  /\ check_working_hours_fast 60 0 hours_dict true = false.
Proof. vm_compute. repeat split; discriminate. Qed.

(** The first loop on a single cross-midnight interval. *)
Lemma scan_same_day_cross m iv :
  end_minutes iv <= start_minutes iv ->
  scan_same_day m [iv] = true <-> start_minutes iv <= m \/ m < end_minutes iv.
Proof.
  intros Hc. simpl.
  destruct (Z.leb_spec (end_minutes iv) (start_minutes iv)); [| lia].
  destruct (Z.leb_spec (start_minutes iv) m), (Z.ltb_spec m (end_minutes iv));
    simpl; split; try reflexivity; try discriminate; try lia; intros [? | ?]; lia.
Qed.

(** C1, as stated, fails: with Monday 22:00-06:00 as the only interval,
    Monday 03:00 is reported working although 03:00 is before 22:00. *)
Lemma check_working_hours_fast_same_day_counterexample :
  let hours_dict : gmap Z (list interval) := {[ 0 := [((22, 0), (6, 0))] ]} in
  check_working_hours_fast 180 0 hours_dict true = true
  /\ ~ (22 * 60 + 0 <= 180).
Proof. vm_compute. split; [reflexivity | intros H; apply H; reflexivity]. Qed.

(** C1, amended: for a template whose only entry is weekday [d] with the
    single cross-midnight interval ((sh,sm),(eh,em)), and a minute of day [m]:
    on day [d] the slot is working exactly when [m >= sh*60+sm] or
    [m < eh*60+em]; on the following day, for [d] from Monday to Saturday, it
    is working exactly when check_cross_midnight is set and [m < eh*60+em];
    on every weekday other than [d] and its successor it is not working.  So
    a Monday 22:00-06:00 interval covers Monday 00:00-06:00, Monday
    22:00-24:00 and Tuesday 00:00-06:00. *)
Theorem check_working_hours_fast_cross_midnight
    (d sh sm eh em m : Z) (ccm : bool) :
  0 <= d <= 6 ->
  in_int (sh * 60 + sm) -> in_int (eh * 60 + em) ->
  eh * 60 + em <= sh * 60 + sm ->
  0 <= m <= 1439 ->
  let hours_dict : gmap Z (list interval) := {[ d := [((sh, sm), (eh, em))] ]} in
  (check_working_hours_fast m d hours_dict ccm = true
     <-> sh * 60 + sm <= m \/ m < eh * 60 + em)
  /\ (d <= 5 ->
      (check_working_hours_fast m (d + 1) hours_dict ccm = true
         <-> ccm = true /\ m < eh * 60 + em))
  /\ (forall w, 0 <= w <= 6 -> w <> d -> w <> (d + 1) mod 7 ->
      check_working_hours_fast m w hours_dict ccm = false).
Proof.
  intros Hd Hs He Hcross Hm hours_dict.
  set (iv := ((sh, sm), (eh, em)) : interval).
  assert (Hsm : start_minutes iv = sh * 60 + sm) by (apply start_minutes_exact, Hs).
  assert (Hem : end_minutes iv = eh * 60 + em) by (apply end_minutes_exact, He).
  assert (Hivc : end_minutes iv <= start_minutes iv) by lia.
  split; [| split].
  - unfold check_working_hours_fast, cross_midnight_check, hours_dict.
    rewrite lookup_singleton_eq. fold iv.
    destruct (scan_same_day m _) eqn:Hsd;
      pose proof (scan_same_day_cross m iv Hivc) as Hscan.
    + apply Hscan in Hsd. split; [intros _; lia | reflexivity].
    + assert (Hno : ~ (sh * 60 + sm <= m \/ m < eh * 60 + em)).
      { intros H. rewrite <- Hsm, <- Hem in H. apply Hscan in H.
        pose proof (eq_trans (eq_sym H) Hsd). discriminate. }
      destruct ccm; [| split; [discriminate | intros H; contradiction]].
      rewrite prev_weekday_c by lia.
      rewrite lookup_singleton_ne by (destruct (Z.eqb_spec d 0); lia).
      split; [discriminate | intros H; contradiction].
  - intros Hd5.
    rewrite check_working_hours_fast_no_entry
      by (try (unfold hours_dict; apply lookup_singleton_ne); lia).
    replace (d + 1 - 1) with d by lia.
    unfold hours_dict. rewrite lookup_singleton_eq. fold iv. split.
    + intros (Hc & ivs & iv' & Heq & Hin & _ & Hlt).
      injection Heq as <-. apply list_elem_of_singleton in Hin as ->.
      split; [exact Hc | lia].
    + intros [Hc Hlt]. split; [exact Hc |].
      exists [iv], iv. repeat split; try lia. apply list_elem_of_singleton. reflexivity.
  - intros w Hw Hwd Hnext.
    unfold check_working_hours_fast, cross_midnight_check, hours_dict.
    rewrite lookup_singleton_ne by lia.
    destruct ccm; simpl; [| reflexivity].
    rewrite prev_weekday_c by lia.
    rewrite lookup_singleton_ne; [reflexivity |].
    destruct (Z.eqb_spec w 0); [lia |].
    intros ->. apply Hnext.
    replace (w - 1 + 1) with w by lia. symmetry. apply Z.mod_small. lia.
Qed.

Lemma check_working_hours_fast_cross_midnight_witness :
  let hours_dict : gmap Z (list interval) := {[ 0 := [((22, 0), (6, 0))] ]} in
  check_working_hours_fast 180 0 hours_dict true = true
    <-> 22 * 60 + 0 <= 180 \/ 180 < 6 * 60 + 0.
Proof.
  apply (check_working_hours_fast_cross_midnight 0 22 0 6 0 180 true);
    try lia; vm_compute; split; discriminate.
Defined.

(** ** Daily hours *)

Lemma int_sub_minutes iv :
  int_sub (end_minutes iv) (start_minutes iv) = wrap32 (span iv).
Proof.
  unfold int_sub, end_minutes, start_minutes, get_slot_minutes, int_add, int_mul.
  rewrite !wrap32_add_l, wrap32_sub_lr. reflexivity.
Qed.

(** The loop computes the total span, wrapped to 32 bits. *)
Lemma sum_minutes_wrap intervals : forall acc,
  sum_minutes (wrap32 acc) intervals = wrap32 (acc + total_span intervals).
Proof.
  induction intervals as [| iv rest IH]; intros acc; simpl.
  - f_equal. lia.
  - rewrite int_sub_minutes. unfold int_add.
    rewrite wrap32_add_l, wrap32_add_r, IH. f_equal. lia.
Qed.

Lemma covered_total_ge intervals : total_span intervals <= covered_total intervals.
Proof.
  induction intervals as [| iv rest IH]; simpl; [lia |].
  unfold covered_minutes, span in *.
  destruct (Z.leb_spec (clock_minutes (snd iv)) (clock_minutes (fst iv))); lia.
Qed.

(** The loop leaves the exact minute total in [total_minutes] when that
    total fits a C int. *)
Lemma sum_minutes_exact intervals :
  in_int (total_span intervals) -> sum_minutes 0 intervals = total_span intervals.
Proof.
  intros Hin. change 0 with (wrap32 0) at 1. rewrite sum_minutes_wrap. simpl.
  apply wrap32_id, Hin.
Qed.

Lemma total_span_cross intervals :
  Exists crosses_midnight intervals ->
  total_span intervals + 1440 <= covered_total intervals.
Proof.
  induction 1 as [iv rest Hc | iv rest _ IH]; simpl.
  - pose proof (covered_total_ge rest).
    unfold crosses_midnight, covered_minutes, span in *.
    destruct (Z.leb_spec (clock_minutes (snd iv)) (clock_minutes (fst iv))); lia.
  - unfold covered_minutes, span.
    destruct (Z.leb_spec (clock_minutes (snd iv)) (clock_minutes (fst iv))); lia.
Qed.

(** Every minute total of at most a day, either way, passes [hours_accurate]:
    checked on each of the 2881 totals. *)
Lemma hours_accurate_table :
  forallb hours_accurate (map (fun n => Z.of_nat n - 1440) (seq 0 2881)) = true.
Proof. vm_compute. reflexivity. Qed.

Lemma hours_accurate_day t : -1440 <= t <= 1440 -> hours_accurate t = true.
Proof.
  intros Ht. pose proof hours_accurate_table as Htab.
  rewrite forallb_forall in Htab. apply Htab.
  apply in_map_iff. exists (Z.to_nat (t + 1440)). split; [lia |].
  apply in_seq. lia.
Qed.

Lemma hours_accurate_spec t :
  hours_accurate t = true ->
  let v := float_value (hours_of_minutes t) in
  is_number (hours_of_minutes t) = true
  /\ (Qabs (60 * v - inject_Z t) * inject_Z (2 ^ 24) <= Qabs (inject_Z t))%Q
  /\ (t mod 15 = 0 -> 60 * v == inject_Z t)
  /\ (60 * v < inject_Z (t + 1440))%Q.
Proof.
  unfold hours_accurate. intros H.
  apply andb_prop in H as [H H4]. apply andb_prop in H as [H H3].
  apply andb_prop in H as [H1 H2].
  split; [exact H1 |]. split; [apply Qle_bool_iff, H2 |]. split.
  - intros Hm. rewrite Hm in H3. simpl in H3. apply Qeq_bool_iff, H3.
  - apply Qnot_le_lt. intros Hle. apply Qle_bool_iff in Hle.
    rewrite Hle in H4. discriminate.
Qed.

(** C10, as stated, fails: for the ten minutes 09:00-09:10 the function
    returns the single-precision number 11184811 / 2^26 = 0.1666666716...,
    which is not 10 / 60. *)
Lemma calculate_daily_hours_rounding_counterexample :
  calculate_daily_hours [((9, 0), (9, 10))] = S754_finite false 11184811 (-26)
  /\ float_value (calculate_daily_hours [((9, 0), (9, 10))]) == 11184811 # 67108864
  /\ ~ float_value (calculate_daily_hours [((9, 0), (9, 10))]) == inject_Z 10 / 60.
Proof.
  split; [vm_compute; reflexivity |]. split; [vm_compute; reflexivity |].
  vm_compute. discriminate.
Qed.

(** C10, amended: when the sum [T] over all intervals of (end minutes - start
    minutes) fits a C int, [calculate_daily_hours] returns [T / 60] as C
    computes it in single precision, [<float>T / 60.0].  For a list in which
    every interval ends after it starts [T] is the covered time in minutes;
    a cross-midnight interval contributes its span, zero or negative, in
    place of the 1440 minutes more that it covers, so for a list with such
    an interval [T] is at least 1440 below the covered minutes.  For [T] of
    at most a day either way the result is a number within a relative error
    of 2^-24 of [T / 60], equal to it when [T] is a multiple of 15 minutes,
    and, for a list with a cross-midnight interval, less than the covered
    hours. *)
Theorem calculate_daily_hours_single (intervals : list interval) :
  in_int (total_span intervals) ->
  let T := total_span intervals in
  let v := float_value (calculate_daily_hours intervals) in
  calculate_daily_hours intervals = hours_of_minutes T
  /\ (Forall (fun iv => ~ crosses_midnight iv) intervals ->
      T = covered_total intervals)
  /\ (forall iv, iv ∈ intervals -> crosses_midnight iv ->
      span iv <= 0 /\ covered_minutes iv = span iv + 1440)
  /\ (Exists crosses_midnight intervals -> T + 1440 <= covered_total intervals)
  /\ (-1440 <= T <= 1440 ->
      is_number (calculate_daily_hours intervals) = true
      /\ (Qabs (60 * v - inject_Z T) * inject_Z (2 ^ 24) <= Qabs (inject_Z T))%Q
      /\ (T mod 15 = 0 -> 60 * v == inject_Z T)
      /\ (Exists crosses_midnight intervals ->
          (v < inject_Z (covered_total intervals) / 60)%Q)).
Proof.
  intros Hin T v. subst T v.
  assert (Hcalc : calculate_daily_hours intervals
                  = hours_of_minutes (total_span intervals)).
  { unfold calculate_daily_hours. rewrite sum_minutes_exact by assumption. reflexivity. }
  split; [exact Hcalc |]. split; [| split; [| split]].
  - clear. induction 1 as [| iv rest Hiv _ IH]; simpl; [reflexivity |].
    rewrite IH. unfold covered_minutes, crosses_midnight in *.
    destruct (Z.leb_spec (clock_minutes (snd iv)) (clock_minutes (fst iv))); [| reflexivity].
    contradiction.
  - intros iv _ Hc. unfold crosses_midnight, covered_minutes, span in *.
    destruct (Z.leb_spec (clock_minutes (snd iv)) (clock_minutes (fst iv))); lia.
  - apply total_span_cross.
  - intros HT. rewrite Hcalc.
    destruct (hours_accurate_spec _ (hours_accurate_day _ HT)) as (H1 & H2 & H3 & H4).
    split; [exact H1 |]. split; [exact H2 |]. split; [exact H3 |].
    intros Hex. apply total_span_cross in Hex.
    apply Qlt_shift_div_l; [reflexivity |].
    rewrite Qmult_comm. eapply Qlt_le_trans; [exact H4 |].
    rewrite <- Zle_Qle. exact Hex.
Qed.

Lemma calculate_daily_hours_single_witness :
  calculate_daily_hours [night_shift] = hours_of_minutes (total_span [night_shift])
  /\ (float_value (calculate_daily_hours [night_shift])
      < inject_Z (covered_total [night_shift]) / 60)%Q.
Proof.
  destruct (calculate_daily_hours_single [night_shift]) as (H1 & _ & _ & _ & H5).
  - vm_compute. split; discriminate.
  - split; [exact H1 |].
    apply H5; [vm_compute; split; discriminate |].
    left. vm_compute. discriminate.
Defined.

(** ** The scoreboard scan *)

Section ScanProperties.

Context {V I : Type}.
Variable sb : list (option V).
Variables start_idx end_idx s_idx e_idx min_duration_slots : Z.
Variable start_date : datetime.
Variable resolution : Z.
Variable predicate : option V -> bool.
Variable interval_class : datetime -> datetime -> I.

Hypothesis start_nonneg : 0 <= start_idx.
Hypothesis end_below_max : end_idx < INT_MAX.

Abbreviation matching := (pred_at sb end_idx predicate).
Abbreviation value_at := (slot_value sb).
Abbreviation instant := (slot_instant start_date resolution).
Abbreviation interval_of :=
  (make_interval s_idx e_idx start_date resolution interval_class).
Abbreviation scan_loop :=
  (scan sb end_idx s_idx e_idx min_duration_slots start_date resolution
     predicate interval_class).
Abbreviation maximal_run := (maximal_run sb start_idx end_idx predicate).
Abbreviation emitted :=
  (emitted sb start_idx end_idx s_idx e_idx min_duration_slots start_date
     resolution predicate interval_class).
Abbreviation scan_inv := (scan_inv sb start_idx end_idx predicate).

Lemma pred_at_true j :
  matching j = true <-> j < end_idx /\ predicate (value_at j) = true.
Proof.
  unfold pred_at. destruct (Z.ltb_spec j end_idx).
  - split; [intros H'; split; [lia | exact H'] | intros [_ H']; exact H'].
  - split; [discriminate | lia].
Qed.

Lemma pred_at_false j :
  matching j = false -> j < end_idx -> predicate (value_at j) = false.
Proof.
  unfold pred_at. destruct (Z.ltb_spec j end_idx); [tauto | lia].
Qed.

Lemma make_interval_clamp st b :
  interval_of st b
  = interval_class (instant (Z.max st s_idx)) (instant (Z.min b e_idx)).
Proof.
  unfold make_interval.
  destruct (Z.ltb_spec st s_idx), (Z.ltb_spec e_idx b);
    f_equal; f_equal; lia.
Qed.

(** A finished run satisfies [emitted]. *)
Lemma finished_run_emitted idx duration start :
  scan_inv idx duration start -> idx <= end_idx -> matching idx = false ->
  0 < duration -> min_duration_slots <= duration ->
  emitted (interval_of start idx).
Proof.
  intros (Hidx & Hdur & _ & Hst & Hall & Hleft) Hle Hp Hpos Hmin.
  exists (idx - duration), idx. split; [| split].
  - unfold maximal_run. split; [lia |]. split; [lia |]. split; [| split].
    + intros j Hj. apply pred_at_true, Hall, Hj.
    + destruct Hleft as [Hl | Hl]; [left; exact Hl | right].
      apply pred_at_false; [exact Hl | lia].
    + destruct (Z.eq_dec idx end_idx) as [He | He]; [left; exact He | right].
      apply pred_at_false; [exact Hp | lia].
  - lia.
  - rewrite make_interval_clamp, (Hst Hpos). reflexivity.
Qed.

(** One step of the loop keeps the invariant. *)
Lemma scan_inv_match idx duration start :
  scan_inv idx duration start -> idx <= end_idx -> matching idx = true ->
  scan_inv (idx + 1) (duration + 1) (if start =? 0 then idx else start).
Proof.
  intros (Hidx & Hdur & Hz & Hst & Hall & Hleft) Hle Hp.
  unfold scan_inv. replace (idx + 1 - (duration + 1)) with (idx - duration) by lia.
  split; [lia |]. split; [lia |]. split; [lia |]. split; [| split].
  - intros _. destruct (Z.eq_dec duration 0) as [Hd0 | Hd0].
    + rewrite (Hz Hd0). unfold recorded_start. case_Zb; lia.
    + pose proof (Hst ltac:(lia)) as Hs. clear Hst Hz.
      unfold recorded_start in *. case_Zb; lia.
  - intros j Hj. destruct (Z.eq_dec j idx) as [-> | Hne]; [exact Hp |].
    apply Hall. lia.
  - exact Hleft.
Qed.

Lemma scan_inv_reset idx duration start :
  scan_inv idx duration start -> idx <= end_idx -> matching idx = false ->
  scan_inv (idx + 1) 0 0.
Proof.
  intros (Hidx & Hdur & Hz & Hst & Hall & Hleft) Hle Hp.
  unfold scan_inv. replace (idx + 1 - 0 - 1) with idx by lia.
  split; [lia |]. split; [lia |]. split; [reflexivity |]. split; [lia |].
  split; [intros j Hj; lia | right; exact Hp].
Qed.

(** The loop returns, and everything it appends is [emitted]. *)
Lemma scan_emitted fuel : forall idx duration start intervals,
  scan_inv idx duration start ->
  Forall emitted intervals ->
  (Z.to_nat (end_idx + 1 - idx) < fuel)%nat ->
  exists l, scan_loop fuel idx duration start intervals = Some l /\ Forall emitted l.
Proof.
  induction fuel as [| fuel IH]; intros idx duration start intervals Hinv Hacc Hfuel;
    [lia |].
  pose proof Hinv as (Hidx & Hdur & Hz & _).
  simpl. destruct (Z.leb_spec idx end_idx) as [Hle | Hgt];
    [| exists intervals; split; [reflexivity | exact Hacc]].
  assert (Hnn : (idx <? sb_len sb) && (idx <? 0) = false).
  { destruct (Z.ltb_spec idx 0); [lia | apply andb_false_r]. }
  rewrite Hnn.
  assert (Hnext : int_add idx 1 = idx + 1).
  { apply wrap32_id. unfold in_int, INT_MIN, INT_MAX in *. lia. }
  assert (Hfuel' : (Z.to_nat (end_idx + 1 - (idx + 1)) < fuel)%nat) by lia.
  rewrite Hnext.
  destruct (matching idx) eqn:Hp.
  - assert (Hd : int_add duration 1 = duration + 1).
    { apply wrap32_id. unfold in_int, INT_MIN, INT_MAX in *. lia. }
    rewrite Hd. apply IH; [apply scan_inv_match; assumption | exact Hacc | exact Hfuel'].
  - destruct (Z.ltb_spec 0 duration) as [Hpos | Hzero].
    + apply IH; [eapply scan_inv_reset; eassumption | | exact Hfuel'].
      destruct (Z.leb_spec min_duration_slots duration) as [Hmin | Hshort];
        [| exact Hacc].
      apply Forall_app. split; [exact Hacc |].
      apply Forall_singleton.
      apply (finished_run_emitted idx duration start); assumption.
    + assert (duration = 0) by lia. subst duration. rewrite (Hz eq_refl).
      apply IH; [eapply scan_inv_reset; eassumption | exact Hacc | exact Hfuel'].
Qed.

Lemma scan_inv_initial : start_idx <= end_idx + 1 -> scan_inv start_idx 0 0.
Proof.
  intros H. unfold scan_inv. replace (start_idx - 0) with start_idx by lia.
  split; [lia |]. split; [lia |]. split; [reflexivity |]. split; [lia |].
  split; [intros j Hj; lia | left; reflexivity].
Qed.

(** The scan over a window [0 <= start_idx <= end_idx < INT_MAX] returns a
    list of intervals, each of them emitted for a maximal run of at least
    [min_duration_slots] matching slots. *)
Lemma collect_intervals_fast_emitted size :
  start_idx <= end_idx ->
  exists l,
    collect_intervals_fast sb start_idx end_idx s_idx e_idx min_duration_slots
      size start_date resolution predicate interval_class = Some l
    /\ Forall emitted l.
Proof.
  intros Hse. unfold collect_intervals_fast.
  apply scan_emitted; [apply scan_inv_initial; lia | constructor | lia].
Qed.

End ScanProperties.

(** C2, as stated, fails: asked for runs of at least four slots within slots
    3..4, with the scan widened to slots 0..6, the run of five busy slots
    1..5 is kept and clamped to the interval from slot 3 to slot 4, which
    spans one slot. *)
Lemma collect_intervals_fast_clamped_counterexample :
  let s := monday_2025_09_01 in
  collect_intervals_fast busy_one_to_six 0 6 3 4 4 7 s 3600 busy pair
  = Some [(plus_seconds s (3 * 3600), plus_seconds s (4 * 3600))]
  /\ spanned_slots (plus_seconds s (3 * 3600), plus_seconds s (4 * 3600)) 3600 = 1
  /\ ~ Forall (fun iv => 4 <= spanned_slots iv 3600)
        [(plus_seconds s (3 * 3600), plus_seconds s (4 * 3600))].
Proof.
  split; [vm_compute; reflexivity |]. split; [vm_compute; reflexivity |].
  intros H. apply Forall_inv in H. vm_compute in H. apply H. reflexivity.
Qed.

(** A run that begins at slot 0 is reported from slot 1: the value 0 of
    [start] also means that no run has begun. *)
Example collect_intervals_fast_slot_zero :
  let s := monday_2025_09_01 in
  collect_intervals_fast [Some (); Some (); Some (); None] 0 3 0 3 1 4 s 3600 busy pair
  = Some [(plus_seconds s (1 * 3600), plus_seconds s (3 * 3600))].
Proof. vm_compute. reflexivity. Qed.

(** C2, amended: for a scan window [0 <= start_idx <= end_idx < INT_MAX] and
    [min_duration_slots >= 1], [collect_intervals_fast] returns a list, and
    every interval of it comes from a maximal run [a .. b-1] of consecutive
    matching slots of the window that has at least [min_duration_slots]
    slots (shorter runs are discarded).  The interval is that run clamped to
    [s_idx, e_idx]: it ends at [min b e_idx] and starts at an index that is
    at least [s_idx] and is [max a s_idx] whenever [a >= 1] or [s_idx >= 1];
    after clamping it may span fewer than [min_duration_slots] slots. *)
Theorem collect_intervals_fast_runs {V I : Type} (sb : list (option V))
    (start_idx end_idx s_idx e_idx min_duration_slots size : Z)
    (start_date : datetime) (resolution : Z)
    (predicate : option V -> bool) (interval_class : datetime -> datetime -> I) :
  0 <= start_idx -> start_idx <= end_idx -> end_idx < INT_MAX ->
  1 <= min_duration_slots ->
  exists l,
    collect_intervals_fast sb start_idx end_idx s_idx e_idx min_duration_slots
      size start_date resolution predicate interval_class = Some l
    /\ forall x, x ∈ l ->
       exists a b st,
         maximal_run sb start_idx end_idx predicate a b
         /\ min_duration_slots <= b - a
         /\ x = interval_class (slot_instant start_date resolution st)
                               (slot_instant start_date resolution (Z.min b e_idx))
         /\ s_idx <= st /\ Z.min b e_idx <= e_idx
         /\ (1 <= a \/ 1 <= s_idx -> st = Z.max a s_idx).
Proof.
  intros H0 Hse Hmax _.
  destruct (collect_intervals_fast_emitted sb start_idx end_idx s_idx e_idx
              min_duration_slots start_date resolution predicate interval_class
              H0 Hmax size Hse) as (l & Hl & Hall).
  exists l. split; [exact Hl |].
  intros x Hx. rewrite Forall_forall in Hall.
  destruct (Hall x Hx) as (a & b & Hrun & Hmin & ->).
  exists a, b, (Z.max (recorded_start a b) s_idx).
  split; [exact Hrun |]. split; [exact Hmin |]. split; [reflexivity |].
  split; [lia |]. split; [lia |].
  intros Hor. destruct Hrun as (Ha & _).
  unfold recorded_start. case_Zb; lia.
Qed.

Lemma collect_intervals_fast_runs_witness :
  exists l,
    collect_intervals_fast busy_one_to_six 0 6 3 4 4 7 monday_2025_09_01 3600
      busy pair = Some l
    /\ forall x, x ∈ l ->
       exists a b st,
         maximal_run busy_one_to_six 0 6 busy a b
         /\ 4 <= b - a
         /\ x = (slot_instant monday_2025_09_01 3600 st,
                 slot_instant monday_2025_09_01 3600 (Z.min b 4))
         /\ 3 <= st /\ Z.min b 4 <= 4
         /\ (1 <= a \/ 1 <= 3 -> st = Z.max a 3).
Proof.
  apply (collect_intervals_fast_runs busy_one_to_six 0 6 3 4 4 7
           monday_2025_09_01 3600 busy pair);
    first [lia | vm_compute; reflexivity].
Defined.



(** * Further properties of the time grid *)

(** The unclamped index of any datetime, in microseconds. *)
Lemma date_to_idx_fast_unclamped d s r size :
  0 < r ->
  date_to_idx_fast d s r size false =
  let t := Z.quot (d - s) (US_PER_SECOND * r) in
  if in_intb t then Some t else None.
Proof.
  intros Hr. unfold date_to_idx_fast.
  rewrite (slot_quotient_comp _ _ r (_total_seconds_us _)).
  unfold datetime_sub. rewrite timedelta_us_of_us.
  rewrite slot_quotient_us by assumption. simpl.
  destruct (in_intb _); reflexivity.
Qed.

(** Without overflow of [idx * resolution] the unclamped date of a slot is
    the start plus that many seconds. *)
Lemma idx_to_date_fast_exact i s r size e :
  in_int (i * r) -> idx_to_date_fast i s r size false e = plus_seconds s (i * r).
Proof.
  intros Hin. unfold idx_to_date_fast, int_mul.
  rewrite wrap32_id by assumption. apply datetime_add_seconds.
Qed.

Lemma scoreboard_size_seconds s K r :
  0 <= K -> 0 < r -> in_int (K / r + 1) ->
  scoreboard_size (Some s) (Some (plus_seconds s K)) r = Some (K / r + 1).
Proof.
  intros HK Hr Hin.
  assert (Hq : Z.quot K r = K / r) by (apply Z.quot_div_nonneg; lia).
  assert (Hin' : in_int (Z.quot K r)).
  { rewrite Hq. pose proof (Z.div_pos K r HK Hr).
    unfold in_int, INT_MIN, INT_MAX in *. lia. }
  unfold scoreboard_size, total_seconds, datetime_sub, plus_seconds.
  rewrite timedelta_us_of_us.
  replace (s + K * US_PER_SECOND - s) with (K * US_PER_SECOND) by lia.
  rewrite slot_quotient_seconds by assumption. simpl.
  rewrite Hq. unfold int_add. rewrite wrap32_id by assumption. reflexivity.
Qed.

Lemma plus_seconds_le s a b : plus_seconds s a <= plus_seconds s b <-> a <= b.
Proof. unfold plus_seconds, US_PER_SECOND. lia. Qed.

Lemma plus_seconds_lt s a b : plus_seconds s a < plus_seconds s b <-> a < b.
Proof. unfold plus_seconds, US_PER_SECOND. lia. Qed.

(** X1: every whole-second instant from the start of slot [i] up to, but not
    including, the start of slot [i + 1] has unclamped index [i], for a slot
    [i >= 0] whose dates [idx_to_date_fast] computes without overflow. *)
Theorem date_to_idx_fast_within_slot (s e : datetime) (i k r size : Z) :
  0 < r -> 0 <= i -> (i + 1) * r <= INT_MAX ->
  idx_to_date_fast i s r size false e <= plus_seconds s k
    < idx_to_date_fast (i + 1) s r size false e ->
  date_to_idx_fast (plus_seconds s k) s r size false = Some i
  /\ project_date_to_idx (plus_seconds s k) (Some s) r = Some i.
Proof.
  intros Hr Hi Hmax Hk.
  assert (Hin1 : in_int (i * r)) by (unfold in_int, INT_MIN, INT_MAX in *; nia).
  assert (Hin2 : in_int ((i + 1) * r)) by (unfold in_int, INT_MIN, INT_MAX in *; nia).
  rewrite !idx_to_date_fast_exact in Hk by assumption.
  rewrite plus_seconds_le, plus_seconds_lt in Hk.
  assert (Hq : Z.quot k r = i).
  { rewrite Z.quot_div_nonneg by nia. symmetry. apply Z.div_unique with (k - i * r); lia. }
  assert (Hin : in_int (Z.quot k r)).
  { rewrite Hq. unfold in_int, INT_MIN, INT_MAX in *. nia. }
  rewrite date_to_idx_fast_seconds, project_date_to_idx_seconds by assumption.
  rewrite Hq. split; reflexivity.
Qed.

Lemma date_to_idx_fast_within_slot_witness :
  date_to_idx_fast (plus_seconds monday_2025_09_01 34199) monday_2025_09_01
    3600 1465 false = Some 9.
Proof.
  apply (date_to_idx_fast_within_slot monday_2025_09_01 monday_2025_09_01
           9 34199 3600 1465);
    [lia | lia | vm_compute; discriminate | vm_compute; split; [discriminate | reflexivity]].
Defined.

(** X2: converting a whole-second instant at or after the start to its index
    and back gives the start of its slot: the instant minus
    [k mod resolution] seconds, at most the instant and less than one
    resolution before it. *)
Theorem idx_to_date_fast_of_date_to_idx (s e : datetime) (k r size : Z) :
  0 < r -> 0 <= k <= INT_MAX ->
  exists i,
    date_to_idx_fast (plus_seconds s k) s r size false = Some i
    /\ idx_to_date_fast i s r size false e = plus_seconds s (k - k mod r)
    /\ idx_to_date_fast i s r size false e <= plus_seconds s k
       < plus_seconds (idx_to_date_fast i s r size false e) r.
Proof.
  intros Hr Hk. exists (k / r).
  pose proof (Z.div_mod k r ltac:(lia)) as Hdm.
  pose proof (Z.mod_pos_bound k r Hr) as Hmb.
  pose proof (Z.div_pos k r ltac:(lia) Hr) as Hq0.
  assert (Hq : Z.quot k r = k / r) by (apply Z.quot_div_nonneg; lia).
  assert (Hin : in_int (Z.quot k r)).
  { rewrite Hq. unfold in_int, INT_MIN, INT_MAX in *. nia. }
  assert (Hin' : in_int (k / r * r)) by (unfold in_int, INT_MIN, INT_MAX in *; nia).
  rewrite date_to_idx_fast_seconds by assumption.
  rewrite idx_to_date_fast_exact by assumption.
  replace (k / r * r) with (k - k mod r) by lia.
  split; [rewrite Hq; reflexivity |]. split; [reflexivity |].
  unfold plus_seconds, US_PER_SECOND. lia.
Qed.

Lemma idx_to_date_fast_of_date_to_idx_witness :
  exists i,
    date_to_idx_fast (plus_seconds monday_2025_09_01 34199) monday_2025_09_01
      3600 1465 false = Some i
    /\ idx_to_date_fast i monday_2025_09_01 3600 1465 false monday_2025_09_01
       = plus_seconds monday_2025_09_01 (34199 - 34199 mod 3600)
    /\ idx_to_date_fast i monday_2025_09_01 3600 1465 false monday_2025_09_01
       <= plus_seconds monday_2025_09_01 34199
       < plus_seconds
           (idx_to_date_fast i monday_2025_09_01 3600 1465 false monday_2025_09_01)
           3600.
Proof.
  apply (idx_to_date_fast_of_date_to_idx monday_2025_09_01 monday_2025_09_01
           34199 3600 1465);
    [lia | vm_compute; split; discriminate].
Defined.

(** The clamped index is the clamp of the unclamped one. *)
Lemma date_to_idx_fast_clamped d s r size :
  date_to_idx_fast d s r size true =
  (fun idx => if idx <? 0 then 0 else if size <=? idx then int_sub size 1 else idx)
    <$> date_to_idx_fast d s r size false.
Proof.
  unfold date_to_idx_fast.
  destruct (slot_quotient _ r) as [idx |]; simpl; [| reflexivity].
  destruct (idx <? 0); [reflexivity |]. destruct (size <=? idx); reflexivity.
Qed.

(** X3: the index never decreases with the date, for any two datetimes
    (microseconds included) and a positive resolution, unclamped or, for a
    size of at least one slot, clamped. *)
Theorem date_to_idx_fast_monotone (d1 d2 s : datetime) (r size i1 i2 : Z)
    (force : bool) :
  0 < r -> (force = true -> 1 <= size /\ in_int size) ->
  d1 <= d2 ->
  date_to_idx_fast d1 s r size force = Some i1 ->
  date_to_idx_fast d2 s r size force = Some i2 ->
  i1 <= i2.
Proof.
  intros Hr Hsize Hd H1 H2.
  assert (Hmono : Z.quot (d1 - s) (US_PER_SECOND * r)
                  <= Z.quot (d2 - s) (US_PER_SECOND * r)).
  { apply Z.quot_le_mono; unfold US_PER_SECOND; lia. }
  destruct force.
  - destruct (Hsize eq_refl) as [Hs1 Hs2].
    assert (Hsub : int_sub size 1 = size - 1).
    { apply wrap32_id. unfold in_int, INT_MIN, INT_MAX in *. lia. }
    rewrite date_to_idx_fast_clamped, date_to_idx_fast_unclamped in H1, H2 by assumption.
    simpl in H1, H2. rewrite Hsub in H1, H2.
    destruct (in_intb (Z.quot (d1 - s) (US_PER_SECOND * r))); [| discriminate].
    destruct (in_intb (Z.quot (d2 - s) (US_PER_SECOND * r))); [| discriminate].
    simpl in H1, H2. injection H1 as <-. injection H2 as <-.
    case_Zb; lia.
  - rewrite date_to_idx_fast_unclamped in H1, H2 by assumption. simpl in H1, H2.
    destruct (in_intb (Z.quot (d1 - s) (US_PER_SECOND * r))); [| discriminate].
    destruct (in_intb (Z.quot (d2 - s) (US_PER_SECOND * r))); [| discriminate].
    injection H1 as <-. injection H2 as <-. exact Hmono.
Qed.

Lemma date_to_idx_fast_monotone_witness :
  date_to_idx_fast (plus_seconds monday_2025_09_01 (-5400)) monday_2025_09_01
    3600 1465 false = Some (-1)
  /\ date_to_idx_fast (plus_seconds monday_2025_09_01 (-1)) monday_2025_09_01
       3600 1465 false = Some 0
  /\ -1 <= 0.
Proof.
  split; [reflexivity |]. split; [reflexivity |].
  apply (date_to_idx_fast_monotone
           (plus_seconds monday_2025_09_01 (-5400)) (plus_seconds monday_2025_09_01 (-1))
           monday_2025_09_01 3600 1465 (-1) 0 false);
    [lia | discriminate | vm_compute; discriminate | reflexivity | reflexivity].
Defined.

(** X4: every whole-second instant less than one resolution away from the
    project start, before or after it, has unclamped index 0: slot 0 also
    answers for the last [resolution - 1] seconds before the start. *)
Theorem date_to_idx_fast_around_start (s : datetime) (k r size : Z) :
  - r < k < r ->
  date_to_idx_fast (plus_seconds s k) s r size false = Some 0
  /\ project_date_to_idx (plus_seconds s k) (Some s) r = Some 0.
Proof.
  intros Hk.
  assert (Hr : 0 < r) by lia.
  assert (Hq : Z.quot k r = 0).
  { destruct (Z.le_gt_cases 0 k).
    - apply Z.quot_small. lia.
    - replace k with (- (- k)) by lia.
      rewrite Z.quot_opp_l, Z.quot_small by lia. reflexivity. }
  assert (Hin : in_int (Z.quot k r)) by (rewrite Hq; vm_compute; split; discriminate).
  rewrite date_to_idx_fast_seconds, project_date_to_idx_seconds by assumption.
  rewrite Hq. split; reflexivity.
Qed.

Lemma date_to_idx_fast_around_start_witness :
  date_to_idx_fast (plus_seconds monday_2025_09_01 (-3599)) monday_2025_09_01
    3600 1465 false = Some 0.
Proof.
  apply (date_to_idx_fast_around_start monday_2025_09_01 (-3599) 3600 1465). lia.
Defined.

(** X5: the unclamped index is odd in the distance from the project start:
    [k] seconds before the start gives the negative of the index [k] seconds
    after it. *)
Theorem date_to_idx_fast_mirror (s : datetime) (k r size : Z) :
  0 < r -> in_int (Z.quot k r) -> in_int (- Z.quot k r) ->
  date_to_idx_fast (plus_seconds s k) s r size false = Some (Z.quot k r)
  /\ date_to_idx_fast (plus_seconds s (- k)) s r size false = Some (- Z.quot k r).
Proof.
  intros Hr Hin Hin'.
  assert (Hq : Z.quot (- k) r = - Z.quot k r) by (apply Z.quot_opp_l; lia).
  split; [apply date_to_idx_fast_seconds; assumption |].
  rewrite date_to_idx_fast_seconds by (try rewrite Hq; assumption).
  rewrite Hq. reflexivity.
Qed.

Lemma date_to_idx_fast_mirror_witness :
  date_to_idx_fast (plus_seconds monday_2025_09_01 (- 5400)) monday_2025_09_01
    3600 1465 false = Some (- Z.quot 5400 3600).
Proof.
  apply (date_to_idx_fast_mirror monday_2025_09_01 5400 3600 1465);
    [lia | vm_compute; split; discriminate | vm_compute; split; discriminate].
Defined.

(** X6: with the size that [scoreboard_size] computes for a project of [K]
    whole seconds, no instant of the project needs the clamp: [k] seconds
    after the start, [0 <= k <= K], the clamped and the unclamped index are
    both [floor(k / r)], a valid slot, and the project end is the last slot. *)
Theorem date_to_idx_fast_in_project (s : datetime) (k K r size : Z) :
  0 < r -> 0 <= k <= K -> in_int (K / r + 1) ->
  scoreboard_size (Some s) (Some (plus_seconds s K)) r = Some size ->
  date_to_idx_fast (plus_seconds s k) s r size true = Some (k / r)
  /\ date_to_idx_fast (plus_seconds s k) s r size false = Some (k / r)
  /\ 0 <= k / r < size
  /\ date_to_idx_fast (plus_seconds s K) s r size true = Some (size - 1).
Proof.
  intros Hr Hk Hin Hsize.
  rewrite scoreboard_size_seconds in Hsize by (assumption || lia).
  injection Hsize as <-.
  assert (Hmono : k / r <= K / r) by (apply Z.div_le_mono; lia).
  pose proof (Z.div_pos k r ltac:(lia) Hr) as Hk0.
  assert (Hidx : forall j, 0 <= j <= K ->
            date_to_idx_fast (plus_seconds s j) s r (K / r + 1) false = Some (j / r)).
  { intros j Hj.
    assert (Hq : Z.quot j r = j / r) by (apply Z.quot_div_nonneg; lia).
    pose proof (Z.div_pos j r ltac:(lia) Hr).
    assert (j / r <= K / r) by (apply Z.div_le_mono; lia).
    rewrite date_to_idx_fast_seconds; [rewrite Hq; reflexivity | assumption |].
    rewrite Hq. unfold in_int, INT_MIN, INT_MAX in *. lia. }
  rewrite !date_to_idx_fast_clamped, !Hidx by lia. simpl.
  repeat split; try lia.
  - case_Zb; try lia; reflexivity.
  - case_Zb; try lia. f_equal. lia.
Qed.

Lemma date_to_idx_fast_in_project_witness :
  date_to_idx_fast (plus_seconds monday_2025_09_01 5400) monday_2025_09_01
    3600 1465 true = Some (5400 / 3600).
Proof.
  apply (date_to_idx_fast_in_project monday_2025_09_01 5400 5270400 3600 1465);
    [lia | lia | vm_compute; split; discriminate | vm_compute; reflexivity].
Defined.

(** X7: with the clamp, the size that [scoreboard_size] computes for a
    project of [K] whole seconds and the project end as [end_date],
    [idx_to_date_fast] returns the project start for every negative index,
    the project end for every index from [size] on, and for an index in
    between the start plus [idx * resolution] seconds, a product that is at
    most [K] and does not overflow; so the result is a date of the project
    for every index. *)
Theorem idx_to_date_fast_in_project (s : datetime) (idx K r size : Z) :
  0 < r -> 0 <= K < INT_MAX ->
  scoreboard_size (Some s) (Some (plus_seconds s K)) r = Some size ->
  let result := idx_to_date_fast idx s r size true (plus_seconds s K) in
  (idx < 0 -> result = s)
  /\ (size <= idx -> result = plus_seconds s K)
  /\ (0 <= idx < size -> result = plus_seconds s (idx * r) /\ 0 <= idx * r <= K)
  /\ s <= result <= plus_seconds s K.
Proof.
  intros Hr HK Hsize result. subst result.
  pose proof (Z.div_pos K r ltac:(lia) Hr) as Hq0.
  assert (Hqle : K / r <= K) by (apply Z.div_le_upper_bound; nia).
  rewrite scoreboard_size_seconds in Hsize
    by (try (unfold in_int, INT_MIN, INT_MAX in * ); lia).
  injection Hsize as <-.
  unfold idx_to_date_fast.
  destruct (Z.ltb_spec idx 0);
    [repeat split; try lia; unfold plus_seconds, US_PER_SECOND; lia |].
  destruct (Z.leb_spec (K / r + 1) idx);
    [repeat split; try lia; unfold plus_seconds, US_PER_SECOND; lia |].
  assert (Hir : idx * r <= K).
  { pose proof (Z.mul_div_le K r Hr). nia. }
  unfold int_mul. rewrite wrap32_id by (unfold in_int, INT_MIN, INT_MAX in *; nia).
  rewrite datetime_add_seconds.
  repeat split; try lia; try nia; unfold plus_seconds, US_PER_SECOND; nia.
Qed.

Lemma idx_to_date_fast_in_project_witness :
  let result := idx_to_date_fast 2000 monday_2025_09_01 3600 1465 true
                  (plus_seconds monday_2025_09_01 5270400) in
  (2000 < 0 -> result = monday_2025_09_01)
  /\ (1465 <= 2000 -> result = plus_seconds monday_2025_09_01 5270400)
  /\ (0 <= 2000 < 1465 ->
      result = plus_seconds monday_2025_09_01 (2000 * 3600)
      /\ 0 <= 2000 * 3600 <= 5270400)
  /\ monday_2025_09_01 <= result <= plus_seconds monday_2025_09_01 5270400.
Proof.
  apply (idx_to_date_fast_in_project monday_2025_09_01 2000 5270400 3600 1465);
    [lia | vm_compute; split; [discriminate | reflexivity] | vm_compute; reflexivity].
Defined.

(** * Further properties of the calendars *)

(** ** Components of a datetime *)

Lemma weekday_range dt : 0 <= weekday dt <= 6.
Proof. unfold weekday. pose proof (Z.mod_pos_bound (dt / US_PER_DAY) 7). lia. Qed.

Lemma hour_range dt : 0 <= hour dt <= 23.
Proof.
  unfold hour, US_PER_DAY, US_PER_SECOND.
  pose proof (Z.mod_pos_bound dt (86400 * 1000000) ltac:(lia)) as Hm.
  split; [apply Z.div_pos; lia |].
  assert (dt mod (86400 * 1000000) / (3600 * 1000000) < 24); [| lia].
  apply Z.div_lt_upper_bound; lia.
Qed.

Lemma minute_range dt : 0 <= minute dt <= 59.
Proof.
  unfold minute, US_PER_DAY, US_PER_SECOND.
  pose proof (Z.mod_pos_bound (dt mod (86400 * 1000000)) (3600 * 1000000) ltac:(lia)) as Hm.
  split; [apply Z.div_pos; lia |].
  assert ((dt mod (86400 * 1000000)) mod (3600 * 1000000) / (60 * 1000000) < 60); [| lia].
  apply Z.div_lt_upper_bound; lia.
Qed.

(** Hour and minute together are the minute of the day. *)
Lemma hour_minute_of_day dt :
  hour dt * 60 + minute dt = (dt mod US_PER_DAY) / (60 * US_PER_SECOND).
Proof.
  unfold hour, minute, US_PER_DAY, US_PER_SECOND.
  set (x := dt mod (86400 * 1000000)).
  pose proof (Z.div_mod x (3600 * 1000000) ltac:(lia)) as H1.
  pose proof (Z.div_mod (x mod (3600 * 1000000)) (60 * 1000000) ltac:(lia)) as H2.
  pose proof (Z.mod_pos_bound (x mod (3600 * 1000000)) (60 * 1000000) ltac:(lia)) as H3.
  apply Z.div_unique with ((x mod (3600 * 1000000)) mod (60 * 1000000)); lia.
Qed.

(** X9: the components [extract_time_components] reads off a datetime are an
    hour in 0..23, a minute in 0..59 and a weekday in 0..6, and
    [get_slot_minutes] of that hour and minute is the minute of the day, in
    0..1439, with no overflow. *)
Theorem extract_time_components_slot_minutes (dt : datetime) :
  let '(h, m, w) := extract_time_components dt in
  0 <= h <= 23 /\ 0 <= m <= 59 /\ 0 <= w <= 6
  /\ get_slot_minutes h m = (dt mod US_PER_DAY) / (60 * US_PER_SECOND)
  /\ 0 <= get_slot_minutes h m <= 1439.
Proof.
  unfold extract_time_components.
  pose proof (hour_range dt) as Hh. pose proof (minute_range dt) as Hm.
  pose proof (weekday_range dt) as Hw.
  assert (Hg : get_slot_minutes (hour dt) (minute dt) = hour dt * 60 + minute dt).
  { apply get_slot_minutes_exact. unfold in_int, INT_MIN, INT_MAX. lia. }
  repeat split; try lia.
  rewrite Hg. apply hour_minute_of_day.
Qed.

Lemma weekday_plus_week dt : weekday (dt + 7 * US_PER_DAY) = weekday dt.
Proof.
  unfold weekday. rewrite Z.div_add by (unfold US_PER_DAY, US_PER_SECOND; lia).
  rewrite <- (Z.mul_1_l 7) at 1. apply Z.mod_add. lia.
Qed.

Lemma hour_plus_week dt : hour (dt + 7 * US_PER_DAY) = hour dt.
Proof.
  unfold hour. rewrite Z.mod_add by (unfold US_PER_DAY, US_PER_SECOND; lia).
  reflexivity.
Qed.

(** X10: the default calendar repeats every week: a slot and the slot [n]
    slots later, where [n] slots make 7 days, are working or not alike (as
    long as their offsets in seconds fit a C int). *)
Theorem is_working_time_fast_weekly (s : datetime) (i n r a b : Z) :
  n * r = 604800 -> in_int (i * r) -> in_int ((i + n) * r) ->
  is_working_time_fast (i + n) (Some s) r a b
  = is_working_time_fast i (Some s) r a b.
Proof.
  intros Hn Hi Hin. unfold is_working_time_fast, int_mul.
  rewrite !wrap32_id by assumption. rewrite !datetime_add_seconds.
  replace (plus_seconds s ((i + n) * r))
    with (plus_seconds s (i * r) + 7 * US_PER_DAY)
    by (unfold plus_seconds, US_PER_DAY, US_PER_SECOND; nia).
  rewrite weekday_plus_week, hour_plus_week. reflexivity.
Qed.

Lemma is_working_time_fast_weekly_witness :
  is_working_time_fast (9 + 168) (Some monday_2025_09_01) 3600 9 17
  = is_working_time_fast 9 (Some monday_2025_09_01) 3600 9 17.
Proof.
  apply (is_working_time_fast_weekly monday_2025_09_01 9 168 3600 9 17);
    [reflexivity | vm_compute; split; discriminate | vm_compute; split; discriminate].
Defined.



(** ** The weekly template, in general *)

(** The first loop finds an interval of the day that contains the slot. *)
Lemma scan_same_day_true m intervals :
  scan_same_day m intervals = true <->
  exists iv, iv ∈ intervals /\ same_day_hit m iv.
Proof.
  induction intervals as [| iv rest IH]; simpl.
  - split; [discriminate | intros (iv & Hin & _); inversion Hin].
  - assert (Hrest : (exists iv', iv' ∈ iv :: rest /\ same_day_hit m iv')
                    <-> same_day_hit m iv \/ exists iv', iv' ∈ rest /\ same_day_hit m iv').
    { split.
      - intros (iv' & Hin & H). apply elem_of_cons in Hin as [-> | Hin];
          [left; exact H | right; exists iv'; split; assumption].
      - intros [H | (iv' & Hin & H)];
          [exists iv; split; [left | exact H] | exists iv'; split; [right; exact Hin | exact H]]. }
    rewrite Hrest, <- IH. unfold same_day_hit.
    destruct (Z.leb_spec (end_minutes iv) (start_minutes iv));
      destruct (Z.leb_spec (start_minutes iv) m);
      destruct (Z.ltb_spec m (end_minutes iv)); simpl;
      split; intros; try tauto; try lia;
      try (left; lia);
      match goal with H : _ \/ _ |- _ => destruct H as [H | H]; [lia | exact H] end.
Qed.

(** The function as one boolean expression: a hit in the day's own list, or
    the check of the previous day. *)
Lemma check_working_hours_fast_eq m w (hours_dict : gmap Z (list interval)) ccm :
  check_working_hours_fast m w hours_dict ccm
  = scan_same_day m (default [] (hours_dict !! w))
    || cross_midnight_check m w hours_dict ccm.
Proof.
  unfold check_working_hours_fast, cross_midnight_check.
  destruct (hours_dict !! w) as [[| iv rest] |]; destruct ccm; simpl;
    try reflexivity.
  all: destruct (scan_same_day m (iv :: rest)); reflexivity.
Qed.

(** For a weekday 0..6 the previous day is looked up under the key
    [weekday - 1]: Monday's is -1, not Sunday's 6. *)
Lemma prev_weekday_minus_one w :
  0 <= w <= 6 -> int_rem (int_sub w 1) 7 = w - 1.
Proof.
  intros Hw. rewrite prev_weekday_c by assumption.
  destruct (Z.eqb_spec w 0) as [-> | Hne]; reflexivity.
Qed.

Lemma cross_midnight_check_true m w (hours_dict : gmap Z (list interval)) ccm :
  0 <= w <= 6 ->
  cross_midnight_check m w hours_dict ccm = true <->
  ccm = true
  /\ exists intervals iv,
       hours_dict !! (w - 1) = Some intervals /\ iv ∈ intervals /\ prev_day_hit m iv.
Proof.
  intros Hw. unfold cross_midnight_check, prev_day_hit.
  destruct ccm; [| split; [discriminate | intros [H _]; discriminate]].
  rewrite prev_weekday_minus_one by assumption.
  destruct (hours_dict !! (w - 1)) as [ivs |] eqn:Hprev.
  - rewrite scan_prev_day_true. split.
    + intros (iv & H). split; [reflexivity |].
      exists ivs, iv. split; [reflexivity | exact H].
    + intros (_ & ivs' & iv & Heq & H). injection Heq as <-. exists iv. exact H.
  - split; [discriminate | intros (_ & ivs' & iv & Heq & _); discriminate].
Qed.

(** X12: for a weekday 0..6 the slot is working exactly when an interval of
    the weekday's own list contains the minute, or check_cross_midnight is
    set and the list under the key [weekday - 1] has a cross-midnight
    interval that ends after the minute.  For Monday that key is -1: the
    list of Sunday, key 6, is not consulted. *)
Theorem check_working_hours_fast_true_iff (m w : Z)
    (hours_dict : gmap Z (list interval)) (ccm : bool) :
  0 <= w <= 6 ->
  check_working_hours_fast m w hours_dict ccm = true <->
  (exists intervals iv,
     hours_dict !! w = Some intervals /\ iv ∈ intervals /\ same_day_hit m iv)
  \/ (ccm = true
      /\ exists intervals iv,
           hours_dict !! (w - 1) = Some intervals /\ iv ∈ intervals
           /\ prev_day_hit m iv).
Proof.
  intros Hw. rewrite check_working_hours_fast_eq, orb_true_iff.
  rewrite scan_same_day_true, cross_midnight_check_true by assumption.
  split; (intros [H | H]; [left | right; exact H]).
  - destruct H as (iv & Hin & Hhit).
    destruct (hours_dict !! w) as [ivs |]; simpl in Hin; [| inversion Hin].
    exists ivs, iv. repeat split; assumption.
  - destruct H as (ivs & iv & Heq & Hin & Hhit). rewrite Heq. simpl.
    exists iv. split; assumption.
Qed.

Lemma check_working_hours_fast_true_iff_witness :
  check_working_hours_fast 60 2 {[ 1 := [night_shift] ]} true = true <->
  (exists intervals iv,
     ({[ 1 := [night_shift] ]} : gmap Z (list interval)) !! 2 = Some intervals
     /\ iv ∈ intervals /\ same_day_hit 60 iv)
  \/ (true = true
      /\ exists intervals iv,
           ({[ 1 := [night_shift] ]} : gmap Z (list interval)) !! (2 - 1)
           = Some intervals
           /\ iv ∈ intervals /\ prev_day_hit 60 iv).
Proof.
  apply (check_working_hours_fast_true_iff 60 2 {[ 1 := [night_shift] ]} true). lia.
Defined.

(** X13: in a template none of whose intervals crosses midnight, the flag
    check_cross_midnight makes no difference and the slot is working exactly
    when an interval of the weekday's own list has [start <= m < end]: the
    start minute is inside, the end minute is not. *)
Theorem check_working_hours_fast_day_shifts (m w : Z)
    (hours_dict : gmap Z (list interval)) (ccm : bool) :
  (forall d intervals iv,
     hours_dict !! d = Some intervals -> iv ∈ intervals ->
     start_minutes iv < end_minutes iv) ->
  check_working_hours_fast m w hours_dict ccm = true <->
  exists intervals iv,
    hours_dict !! w = Some intervals /\ iv ∈ intervals
    /\ start_minutes iv <= m < end_minutes iv.
Proof.
  intros Hnormal. rewrite check_working_hours_fast_eq, orb_true_iff.
  rewrite scan_same_day_true.
  assert (Hcross : cross_midnight_check m w hours_dict ccm = false).
  { unfold cross_midnight_check. destruct ccm; [| reflexivity].
    destruct (hours_dict !! int_rem (int_sub w 1) 7) as [ivs |] eqn:Hl; [| reflexivity].
    destruct (scan_prev_day m ivs) eqn:Hs; [| reflexivity].
    apply scan_prev_day_true in Hs as (iv & Hin & Hc & _).
    pose proof (Hnormal _ _ _ Hl Hin). lia. }
  rewrite Hcross. split.
  - intros [(iv & Hin & Hhit) | H]; [| discriminate].
    destruct (hours_dict !! w) as [ivs |] eqn:Hl; simpl in Hin; [| inversion Hin].
    exists ivs, iv. split; [reflexivity |]. split; [exact Hin |].
    pose proof (Hnormal _ _ _ Hl Hin). unfold same_day_hit in Hhit. lia.
  - intros (ivs & iv & Heq & Hin & Hhit). left. rewrite Heq. simpl.
    exists iv. split; [exact Hin |]. right. lia.
Qed.

Lemma check_working_hours_fast_day_shifts_witness :
  check_working_hours_fast 540 2 (mon_fri_template 9 17) true = true <->
  exists intervals iv,
    mon_fri_template 9 17 !! 2 = Some intervals /\ iv ∈ intervals
    /\ start_minutes iv <= 540 < end_minutes iv.
Proof.
  apply (check_working_hours_fast_day_shifts 540 2 (mon_fri_template 9 17) true).
  intros d ivs iv Hl Hin. unfold mon_fri_template in Hl.
  repeat (rewrite lookup_insert in Hl; case_decide;
          [injection Hl as <-; apply list_elem_of_singleton in Hin as ->; reflexivity |]).
  rewrite lookup_empty in Hl. discriminate.
Defined.

(** X14: setting check_cross_midnight only adds working time: a slot that is
    working without the flag is working with it. *)
Theorem check_working_hours_fast_flag_adds (m w : Z)
    (hours_dict : gmap Z (list interval)) :
  check_working_hours_fast m w hours_dict false = true ->
  check_working_hours_fast m w hours_dict true = true.
Proof.
  rewrite !check_working_hours_fast_eq, !orb_true_iff.
  intros [H | H]; [left; exact H | discriminate].
Qed.

Lemma check_working_hours_fast_flag_adds_witness :
  check_working_hours_fast 540 2 (mon_fri_template 9 17) true = true.
Proof.
  apply (check_working_hours_fast_flag_adds 540 2 (mon_fri_template 9 17)).
  reflexivity.
Defined.

(** X15: for a weekday 0..6 an empty interval list is the same as no entry:
    storing [[]] under the weekday and deleting the weekday give the same
    answer. *)
Theorem check_working_hours_fast_empty_list (m w : Z)
    (hours_dict : gmap Z (list interval)) (ccm : bool) :
  0 <= w <= 6 ->
  check_working_hours_fast m w (<[w := []]> hours_dict) ccm
  = check_working_hours_fast m w (delete w hours_dict) ccm.
Proof.
  intros Hw. rewrite !check_working_hours_fast_eq.
  rewrite lookup_insert_eq, lookup_delete_eq. simpl.
  unfold cross_midnight_check. destruct ccm; [| reflexivity].
  rewrite prev_weekday_minus_one by assumption.
  rewrite lookup_insert_ne, lookup_delete_ne by lia. reflexivity.
Qed.

Lemma check_working_hours_fast_empty_list_witness :
  check_working_hours_fast 60 2 (<[2 := []]> {[ 1 := [night_shift] ]}) true
  = check_working_hours_fast 60 2 (delete 2 {[ 1 := [night_shift] ]}) true.
Proof.
  apply (check_working_hours_fast_empty_list 60 2 {[ 1 := [night_shift] ]} true). lia.
Defined.

(** X16: an interval whose end equals its start counts as crossing midnight:
    it makes every minute of its weekday working, while
    [calculate_daily_hours] counts it as zero hours, the float +0.0. *)
Theorem check_working_hours_fast_equal_ends (m w : Z)
    (hours_dict : gmap Z (list interval)) (ccm : bool)
    (intervals : list interval) (iv : interval) :
  hours_dict !! w = Some intervals -> iv ∈ intervals ->
  start_minutes iv = end_minutes iv ->
  check_working_hours_fast m w hours_dict ccm = true
  /\ calculate_daily_hours [iv] = S754_zero false
  /\ float_value (calculate_daily_hours [iv]) == 0.
Proof.
  intros Hl Hin Heq.
  assert (Hzero : calculate_daily_hours [iv] = S754_zero false).
  { unfold calculate_daily_hours. simpl. rewrite Heq.
    unfold int_sub. rewrite Z.sub_diag. reflexivity. }
  split; [| split; [exact Hzero | rewrite Hzero; reflexivity]].
  rewrite check_working_hours_fast_eq, orb_true_iff. left.
  rewrite Hl. simpl. apply scan_same_day_true.
  exists iv. split; [exact Hin |]. left. lia.
Qed.

Lemma check_working_hours_fast_equal_ends_witness :
  check_working_hours_fast 700 3 {[ 3 := [((9, 0), (9, 0))] ]} false = true.
Proof.
  apply (check_working_hours_fast_equal_ends 700 3 {[ 3 := [((9, 0), (9, 0))] ]}
           false [((9, 0), (9, 0))] ((9, 0), (9, 0)));
    [reflexivity | apply list_elem_of_singleton; reflexivity | reflexivity].
Defined.

(** ** The default calendar as a weekly template *)

Lemma mon_fri_template_lookup a b w :
  mon_fri_template a b !! w
  = if (0 <=? w) && (w <=? 4) then Some [((a, 0), (b, 0))] else None.
Proof.
  unfold mon_fri_template.
  repeat (rewrite lookup_insert; case_decide; [subst w; reflexivity |]).
  rewrite lookup_empty. case_Zb; try reflexivity. lia.
Qed.

Lemma cross_midnight_check_day_shifts m w (hours_dict : gmap Z (list interval)) ccm :
  (forall d intervals iv,
     hours_dict !! d = Some intervals -> iv ∈ intervals ->
     start_minutes iv < end_minutes iv) ->
  cross_midnight_check m w hours_dict ccm = false.
Proof.
  intros Hnormal. unfold cross_midnight_check. destruct ccm; [| reflexivity].
  destruct (hours_dict !! int_rem (int_sub w 1) 7) as [ivs |] eqn:Hl; [| reflexivity].
  destruct (scan_prev_day m ivs) eqn:Hs; [| reflexivity].
  apply scan_prev_day_true in Hs as (iv & Hin & Hc & _).
  pose proof (Hnormal _ _ _ Hl Hin). lia.
Qed.

(** X17: the default calendar is the weekly template with the single
    interval [a]:00 - [b]:00 on Monday to Friday: for [0 <= a < b <= 24],
    [is_working_time_fast] on a slot and [check_working_hours_fast] on the
    components of the slot's datetime agree, whatever check_cross_midnight. *)
Theorem is_working_time_fast_as_template (s dt : datetime) (i r a b : Z)
    (ccm : bool) :
  0 <= a < b -> b <= 24 ->
  project_idx_to_date i (Some s) r = Some dt ->
  let '(h, m, w) := extract_time_components dt in
  is_working_time_fast i (Some s) r a b
  = check_working_hours_fast (get_slot_minutes h m) w (mon_fri_template a b) ccm.
Proof.
  intros Ha Hb Hdt. injection Hdt as Hdt.
  unfold extract_time_components, is_working_time_fast. rewrite Hdt.
  pose proof (hour_range dt) as Hh. pose proof (minute_range dt) as Hm.
  pose proof (weekday_range dt) as Hw.
  assert (HM : get_slot_minutes (hour dt) (minute dt) = hour dt * 60 + minute dt).
  { apply get_slot_minutes_exact. unfold in_int, INT_MIN, INT_MAX. lia. }
  assert (Hs : start_minutes ((a, 0), (b, 0)) = a * 60).
  { unfold start_minutes. simpl. rewrite get_slot_minutes_exact;
      [lia | unfold in_int, INT_MIN, INT_MAX; lia]. }
  assert (He : end_minutes ((a, 0), (b, 0)) = b * 60).
  { unfold end_minutes. simpl. rewrite get_slot_minutes_exact;
      [lia | unfold in_int, INT_MIN, INT_MAX; lia]. }
  rewrite check_working_hours_fast_eq, cross_midnight_check_day_shifts.
  - rewrite orb_false_r, mon_fri_template_lookup, HM.
    destruct (Z.leb_spec 5 (weekday dt)).
    + replace ((0 <=? weekday dt) && (weekday dt <=? 4)) with false
        by (symmetry; case_Zb; try reflexivity; lia).
      reflexivity.
    + replace ((0 <=? weekday dt) && (weekday dt <=? 4)) with true
        by (symmetry; case_Zb; try reflexivity; lia).
      cbn [default from_option id scan_same_day]. rewrite Hs, He.
      case_Zb; try reflexivity; lia.
  - intros d ivs iv Hl Hin. rewrite mon_fri_template_lookup in Hl.
    destruct ((0 <=? d) && (d <=? 4)); [| discriminate].
    injection Hl as <-. apply list_elem_of_singleton in Hin as ->.
    rewrite Hs, He. lia.
Qed.

Lemma is_working_time_fast_as_template_witness :
  is_working_time_fast 9 (Some monday_2025_09_01) 3600 9 17
  = check_working_hours_fast (get_slot_minutes 9 0) 0 (mon_fri_template 9 17) true.
Proof.
  apply (is_working_time_fast_as_template monday_2025_09_01
           (plus_seconds monday_2025_09_01 32400) 9 3600 9 17 true);
    [lia | lia | reflexivity].
Defined.

(** * Further properties of the daily hours *)

Lemma sum_minutes_total intervals :
  sum_minutes 0 intervals = wrap32 (total_span intervals).
Proof. change 0 with (wrap32 0) at 1. rewrite sum_minutes_wrap. reflexivity. Qed.

Lemma total_span_app l1 l2 :
  total_span (l1 ++ l2) = total_span l1 + total_span l2.
Proof. induction l1 as [| iv l1 IH]; simpl; [reflexivity | rewrite IH; lia]. Qed.

Lemma total_span_permutation l1 l2 :
  l1 ≡ₚ l2 -> total_span l1 = total_span l2.
Proof. induction 1; simpl; lia. Qed.

(** X18: the order of the intervals does not matter to
    [calculate_daily_hours], overflow or not: two lists that are
    permutations of each other give the same result. *)
Theorem calculate_daily_hours_permutation (l1 l2 : list interval) :
  l1 ≡ₚ l2 -> calculate_daily_hours l1 = calculate_daily_hours l2.
Proof.
  intros Hp. unfold calculate_daily_hours.
  rewrite !sum_minutes_total, (total_span_permutation l1 l2 Hp). reflexivity.
Qed.

Lemma calculate_daily_hours_permutation_witness :
  calculate_daily_hours [((9, 0), (12, 0)); ((13, 0), (17, 30))]
  = calculate_daily_hours [((13, 0), (17, 30)); ((9, 0), (12, 0))].
Proof.
  apply (calculate_daily_hours_permutation
           [((9, 0), (12, 0)); ((13, 0), (17, 30))]
           [((13, 0), (17, 30)); ((9, 0), (12, 0))]).
  apply perm_swap.
Defined.

(** [hours_day_bounds t]: the hours returned for [t] minutes are a number
    between 0 and 24, within a relative error of 2^-24 of [t / 60] and equal
    to it when [t] is a multiple of 15. *)
Lemma hours_day_table :
  forallb hours_day_bounds (map Z.of_nat (seq 0 1441)) = true.
Proof. vm_compute. reflexivity. Qed.

Lemma hours_in_day t :
  0 <= t <= 1440 ->
  let v := float_value (hours_of_minutes t) in
  is_number (hours_of_minutes t) = true
  /\ (0 <= v)%Q /\ (v <= 24)%Q
  /\ (Qabs (60 * v - inject_Z t) * inject_Z (2 ^ 24) <= inject_Z t)%Q
  /\ (t mod 15 = 0 -> 60 * v == inject_Z t).
Proof.
  intros Ht.
  assert (H : hours_day_bounds t = true).
  { pose proof hours_day_table as Htab. rewrite forallb_forall in Htab.
    apply Htab. apply in_map_iff. exists (Z.to_nat t). split; [lia |].
    apply in_seq. lia. }
  unfold hours_day_bounds in H.
  apply andb_prop in H as [H H5]. apply andb_prop in H as [H H4].
  apply andb_prop in H as [H H3]. apply andb_prop in H as [H1 H2].
  split; [exact H1 |]. split; [apply Qle_bool_iff, H2 |].
  split; [apply Qle_bool_iff, H3 |]. split; [apply Qle_bool_iff, H4 |].
  intros Hm. rewrite Hm in H5. simpl in H5. apply Qeq_bool_iff, H5.
Qed.

Lemma ordered_day_span lo intervals :
  ordered_day lo intervals ->
  0 <= total_span intervals
  /\ lo + total_span intervals <= 1440
  /\ total_span intervals = covered_total intervals.
Proof.
  revert lo. induction intervals as [| iv rest IH]; intros lo; simpl.
  - lia.
  - intros (Hlo & Hiv & Hrest). destruct (IH _ Hrest) as (H0 & Hhi & Heq).
    unfold covered_minutes, span in *.
    destruct (Z.leb_spec (clock_minutes (snd iv)) (clock_minutes (fst iv))); lia.
Qed.

(** X20: for a day's list as the data model wants it (intervals in order,
    each ending after it starts, none overlapping, all within 00:00-24:00)
    the C int total does not overflow and is the covered time [M] in
    minutes; [calculate_daily_hours] returns a number between 0 and 24,
    within a relative error of 2^-24 of [M / 60], and equal to [M / 60] when
    [M] is a multiple of 15 minutes. *)
Theorem calculate_daily_hours_ordered_day (intervals : list interval) :
  ordered_day 0 intervals ->
  let M := covered_total intervals in
  let v := float_value (calculate_daily_hours intervals) in
  calculate_daily_hours intervals = hours_of_minutes M
  /\ is_number (calculate_daily_hours intervals) = true
  /\ (0 <= v)%Q /\ (v <= 24)%Q
  /\ (Qabs (60 * v - inject_Z M) * inject_Z (2 ^ 24) <= inject_Z M)%Q
  /\ (M mod 15 = 0 -> 60 * v == inject_Z M).
Proof.
  intros Hord M v. subst M v.
  destruct (ordered_day_span 0 intervals Hord) as (H0 & Hhi & Heq).
  rewrite <- Heq.
  assert (Hcalc : calculate_daily_hours intervals
                  = hours_of_minutes (total_span intervals)).
  { unfold calculate_daily_hours. rewrite sum_minutes_total, wrap32_id; [reflexivity |].
    unfold in_int, INT_MIN, INT_MAX. lia. }
  rewrite Hcalc.
  assert (Hrange : 0 <= total_span intervals <= 1440) by lia.
  destruct (hours_in_day _ Hrange) as (H1 & H2 & H3 & H4 & H5).
  repeat split; assumption.
Qed.

Lemma calculate_daily_hours_ordered_day_witness :
  let l := [((9, 0), (12, 0)); ((13, 0), (17, 30))] in
  calculate_daily_hours l = hours_of_minutes (covered_total l)
  /\ is_number (calculate_daily_hours l) = true.
Proof.
  destruct (calculate_daily_hours_ordered_day [((9, 0), (12, 0)); ((13, 0), (17, 30))])
    as (H1 & H2 & _).
  - vm_compute. repeat split; discriminate.
  - split; [exact H1 | exact H2].
Defined.

(** * Further properties of the scoreboard scan *)

Section ScanCompleteness.

Context {V I : Type}.
Variable sb : list (option V).
Variables start_idx end_idx s_idx e_idx min_duration_slots : Z.
Variable start_date : datetime.
Variable resolution : Z.
Variable predicate : option V -> bool.
Variable interval_class : datetime -> datetime -> I.

Hypothesis start_nonneg : 0 <= start_idx.
Hypothesis end_below_max : end_idx < INT_MAX.

Abbreviation matching' := (pred_at sb end_idx predicate).
Abbreviation run_loop :=
  (scan sb end_idx s_idx e_idx min_duration_slots start_date resolution
     predicate interval_class).
Abbreviation run := (maximal_run sb start_idx end_idx predicate).
Abbreviation inv := (scan_inv sb start_idx end_idx predicate).
Abbreviation interval_for :=
  (make_interval s_idx e_idx start_date resolution interval_class).

Lemma not_matching_slot j :
  matching' j = false -> j < end_idx -> predicate (slot_value sb j) = false.
Proof.
  unfold pred_at. destruct (Z.ltb_spec j end_idx); [intros H' _; exact H' | lia].
Qed.

(** At the slot where a maximal run ends, the loop is counting that run. *)
Lemma run_end_tracked a b duration start :
  inv b duration start -> run a b -> duration = b - a /\ matching' b = false.
Proof.
  intros (Hidx & Hdur & _ & _ & Hall & Hleft) (Ha & Hab & Hmatch & Hl & Hr).
  split.
  - destruct (Z.lt_trichotomy a (b - duration)) as [Hlt | [Heq | Hgt]]; [| lia |].
    + exfalso. destruct Hleft as [Hs | Hp]; [lia |].
      apply not_matching_slot in Hp; [| lia].
      rewrite Hmatch in Hp by lia. discriminate.
    + exfalso. destruct Hl as [Hs | Hp]; [lia |].
      assert (Hm : matching' (a - 1) = true) by (apply Hall; lia).
      apply pred_at_true in Hm as [_ Hm]. rewrite Hm in Hp. discriminate.
  - unfold pred_at. destruct (Z.ltb_spec b end_idx); [| reflexivity].
    destruct Hr as [Hr | Hr]; [lia | exact Hr].
Qed.

(** The loop keeps what it has collected and appends the interval of every
    qualifying run that ends at or after the current slot. *)
Lemma scan_complete fuel : forall idx duration start intervals l,
  inv idx duration start ->
  run_loop fuel idx duration start intervals = Some l ->
  (forall x, x ∈ intervals -> x ∈ l)
  /\ (forall a b, run a b -> min_duration_slots <= b - a -> idx <= b ->
      interval_for (recorded_start a b) b ∈ l).
Proof.
  induction fuel as [| fuel IH]; intros idx duration start intervals l Hinv Hscan;
    [discriminate |].
  pose proof Hinv as (Hidx & Hdur & Hz & Hst & _).
  simpl in Hscan. destruct (Z.leb_spec idx end_idx) as [Hle | Hgt].
  2: { injection Hscan as <-. split; [tauto |].
       intros a b (_ & Hab & _) _ Hb. lia. }
  assert (Hnn : (idx <? sb_len sb) && (idx <? 0) = false).
  { destruct (Z.ltb_spec idx 0); [lia | apply andb_false_r]. }
  rewrite Hnn in Hscan.
  assert (Hnext : int_add idx 1 = idx + 1).
  { apply wrap32_id. unfold in_int, INT_MIN, INT_MAX in *. lia. }
  rewrite Hnext in Hscan.
  destruct (matching' idx) eqn:Hp.
  - assert (Hd : int_add duration 1 = duration + 1).
    { apply wrap32_id. unfold in_int, INT_MIN, INT_MAX in *. lia. }
    rewrite Hd in Hscan.
    destruct (IH _ _ _ _ _ (scan_inv_match sb start_idx end_idx predicate
                              idx duration start Hinv Hle Hp) Hscan) as [Hkeep Hruns].
    split; [exact Hkeep |].
    intros a b Hrun Hmin Hb. apply Hruns; try assumption.
    destruct (Z.eq_dec idx b) as [-> | Hne]; [| lia].
    destruct (run_end_tracked a b duration start Hinv Hrun) as [_ Hf].
    rewrite Hf in Hp. discriminate.
  - pose proof (scan_inv_reset sb start_idx end_idx predicate
                  idx duration start Hinv Hle Hp) as Hinv'.
    destruct (Z.ltb_spec 0 duration) as [Hpos | Hzero].
    + destruct (IH _ _ _ _ _ Hinv' Hscan) as [Hkeep Hruns].
      split.
      * intros x Hx. apply Hkeep.
        destruct (min_duration_slots <=? duration); [| exact Hx].
        apply elem_of_app. left. exact Hx.
      * intros a b Hrun Hmin Hb.
        destruct (Z.eq_dec idx b) as [-> | Hne]; [| apply Hruns; try assumption; lia].
        destruct (run_end_tracked a b duration start Hinv Hrun) as [Hdab _].
        apply Hkeep.
        destruct (Z.leb_spec min_duration_slots duration); [| lia].
        apply elem_of_app. right. apply list_elem_of_singleton.
        rewrite (Hst Hpos).
        replace (b - duration) with a by lia. reflexivity.
    + assert (duration = 0) by lia. subst duration.
      rewrite (Hz eq_refl) in Hscan.
      destruct (IH _ _ _ _ _ Hinv' Hscan) as [Hkeep Hruns].
      split; [exact Hkeep |].
      intros a b Hrun Hmin Hb.
      destruct (Z.eq_dec idx b) as [-> | Hne]; [| apply Hruns; try assumption; lia].
      destruct (run_end_tracked a b 0 start Hinv Hrun) as [Hdab _].
      destruct Hrun as (_ & Hab & _). lia.
Qed.

End ScanCompleteness.

(** X21: the scan misses no run: over a window
    [0 <= start_idx <= end_idx < INT_MAX], every maximal run [a .. b-1] of
    matching slots with at least [min_duration_slots] slots has its interval
    in the result, from [max (recorded_start a b) s_idx] to [min b e_idx]
    ([recorded_start a b] is [a], or 1 for a run of two or more slots that
    begins at slot 0). *)
Theorem collect_intervals_fast_complete {V I : Type} (sb : list (option V))
    (start_idx end_idx s_idx e_idx min_duration_slots size : Z)
    (start_date : datetime) (resolution : Z)
    (predicate : option V -> bool) (interval_class : datetime -> datetime -> I)
    (a b : Z) :
  0 <= start_idx -> start_idx <= end_idx -> end_idx < INT_MAX ->
  maximal_run sb start_idx end_idx predicate a b ->
  min_duration_slots <= b - a ->
  exists l,
    collect_intervals_fast sb start_idx end_idx s_idx e_idx min_duration_slots
      size start_date resolution predicate interval_class = Some l
    /\ interval_class
         (slot_instant start_date resolution (Z.max (recorded_start a b) s_idx))
         (slot_instant start_date resolution (Z.min b e_idx)) ∈ l.
Proof.
  intros H0 Hse Hmax Hrun Hmin.
  destruct (collect_intervals_fast_emitted sb start_idx end_idx s_idx e_idx
              min_duration_slots start_date resolution predicate interval_class
              H0 Hmax size Hse) as (l & Hl & _).
  exists l. split; [exact Hl |].
  unfold collect_intervals_fast in Hl.
  destruct (scan_complete sb start_idx end_idx s_idx e_idx min_duration_slots
              start_date resolution predicate interval_class H0 Hmax
              _ _ _ _ _ _ (scan_inv_initial sb start_idx end_idx predicate ltac:(lia)) Hl)
    as [_ Hruns].
  rewrite <- make_interval_clamp. apply Hruns; try assumption.
  destruct Hrun as (? & ? & _). lia.
Qed.

Lemma collect_intervals_fast_complete_witness :
  exists l,
    collect_intervals_fast busy_one_to_six 0 6 3 4 4 7 monday_2025_09_01 3600
      busy pair = Some l
    /\ (slot_instant monday_2025_09_01 3600 (Z.max (recorded_start 1 6) 3),
        slot_instant monday_2025_09_01 3600 (Z.min 6 4)) ∈ l.
Proof.
  apply (collect_intervals_fast_complete busy_one_to_six 0 6 3 4 4 7
           monday_2025_09_01 3600 busy pair 1 6); try lia;
    [vm_compute; reflexivity |].
  unfold maximal_run. split; [lia |]. split; [lia |]. split; [| split].
  - intros j Hj.
    assert (Hc : j = 1 \/ j = 2 \/ j = 3 \/ j = 4 \/ j = 5) by lia.
    destruct Hc as [-> | [-> | [-> | [-> | ->]]]]; reflexivity.
  - right. reflexivity.
  - left. reflexivity.
Defined.

(** X22: when no maximal run can be long enough (the window has fewer than
    [min_duration_slots] slots before [end_idx], or no slot of it matches)
    the result is the empty list. *)
Theorem collect_intervals_fast_nothing {V I : Type} (sb : list (option V))
    (start_idx end_idx s_idx e_idx min_duration_slots size : Z)
    (start_date : datetime) (resolution : Z)
    (predicate : option V -> bool) (interval_class : datetime -> datetime -> I) :
  0 <= start_idx -> start_idx <= end_idx -> end_idx < INT_MAX ->
  (end_idx - start_idx < min_duration_slots
   \/ forall j, start_idx <= j < end_idx -> predicate (slot_value sb j) = false) ->
  collect_intervals_fast sb start_idx end_idx s_idx e_idx min_duration_slots
    size start_date resolution predicate interval_class = Some [].
Proof.
  intros H0 Hse Hmax Hnone.
  destruct (collect_intervals_fast_emitted sb start_idx end_idx s_idx e_idx
              min_duration_slots start_date resolution predicate interval_class
              H0 Hmax size Hse) as (l & Hl & Hall).
  rewrite Hl. f_equal. destruct l as [| x l]; [reflexivity |].
  exfalso. apply Forall_inv in Hall.
  destruct Hall as (a & b & (Ha & Hab & Hmatch & _) & Hmin & _).
  destruct Hnone as [Hshort | Hfalse]; [lia |].
  specialize (Hmatch a ltac:(lia)).
  rewrite Hfalse in Hmatch by lia. discriminate.
Qed.

Lemma collect_intervals_fast_nothing_witness :
  collect_intervals_fast busy_one_to_six 2 5 3 4 4 7 monday_2025_09_01 3600
    busy pair = Some [].
Proof.
  apply (collect_intervals_fast_nothing busy_one_to_six 2 5 3 4 4 7
           monday_2025_09_01 3600 busy pair);
    first [lia | vm_compute; reflexivity].
Defined.

(** X23: a window that ends before it starts is not scanned: for
    [end_idx < start_idx] the result is the empty list, whatever the other
    arguments. *)
Theorem collect_intervals_fast_empty_window {V I : Type} (sb : list (option V))
    (start_idx end_idx s_idx e_idx min_duration_slots size : Z)
    (start_date : datetime) (resolution : Z)
    (predicate : option V -> bool) (interval_class : datetime -> datetime -> I) :
  end_idx < start_idx ->
  collect_intervals_fast sb start_idx end_idx s_idx e_idx min_duration_slots
    size start_date resolution predicate interval_class = Some [].
Proof.
  intros Hlt. unfold collect_intervals_fast.
  replace (Z.to_nat (end_idx - start_idx + 1)) with O by lia.
  simpl. destruct (Z.leb_spec start_idx end_idx); [lia | reflexivity].
Qed.

Lemma collect_intervals_fast_empty_window_witness :
  collect_intervals_fast busy_one_to_six 5 2 3 4 1 7 monday_2025_09_01 3600
    busy pair = Some [].
Proof.
  apply (collect_intervals_fast_empty_window busy_one_to_six 5 2 3 4 1 7
           monday_2025_09_01 3600 busy pair). lia.
Defined.



(** * The grid of slot dates *)

(** X25: slot dates are evenly spaced and increasing: as long as the
    offsets fit a C int, the date of slot [i + 1] is the date of slot [i]
    plus [resolution] seconds, and for a positive resolution a later slot has
    a later date. *)
Theorem idx_to_date_fast_spacing (s e : datetime) (i j r size : Z) :
  0 < r -> i < j -> in_int (i * r) -> in_int ((i + 1) * r) -> in_int (j * r) ->
  idx_to_date_fast (i + 1) s r size false e
  = plus_seconds (idx_to_date_fast i s r size false e) r
  /\ idx_to_date_fast i s r size false e < idx_to_date_fast j s r size false e.
Proof.
  intros Hr Hij Hi Hi1 Hj.
  rewrite !idx_to_date_fast_exact by assumption.
  unfold plus_seconds, US_PER_SECOND. split; nia.
Qed.

Lemma idx_to_date_fast_spacing_witness :
  idx_to_date_fast (8 + 1) monday_2025_09_01 3600 1465 false monday_2025_09_01
  = plus_seconds
      (idx_to_date_fast 8 monday_2025_09_01 3600 1465 false monday_2025_09_01) 3600.
Proof.
  apply (idx_to_date_fast_spacing monday_2025_09_01 monday_2025_09_01
           8 17 3600 1465); first [lia | vm_compute; split; discriminate].
Defined.

(** * Working minutes and daily hours *)

Lemma count_minutes_app working lo n1 n2 :
  count_minutes working lo (n1 + n2)
  = count_minutes working lo n1 + count_minutes working (lo + Z.of_nat n1) n2.
Proof.
  revert lo. induction n1 as [| n1 IH]; intros lo.
  - cbn [count_minutes Nat.add]. replace (lo + Z.of_nat 0) with lo by lia. lia.
  - cbn [count_minutes Nat.add]. rewrite IH, Nat2Z.inj_succ.
    replace (lo + 1 + Z.of_nat n1) with (lo + Z.succ (Z.of_nat n1)) by lia. lia.
Qed.

Lemma count_minutes_ext f g lo n :
  (forall m, lo <= m < lo + Z.of_nat n -> f m = g m) ->
  count_minutes f lo n = count_minutes g lo n.
Proof.
  revert lo. induction n as [| n IH]; intros lo Hfg; simpl; [reflexivity |].
  rewrite (Hfg lo) by lia. rewrite IH; [reflexivity |].
  intros m Hm. apply Hfg. lia.
Qed.

Lemma count_minutes_false lo n : count_minutes (fun _ => false) lo n = 0.
Proof. revert lo. induction n as [| n IH]; intros lo; simpl; [| rewrite IH]; reflexivity. Qed.

Lemma count_minutes_true lo n : count_minutes (fun _ => true) lo n = Z.of_nat n.
Proof. revert lo. induction n as [| n IH]; intros lo; simpl; [| rewrite IH]; lia. Qed.

Lemma ordered_day_bound lo intervals : ordered_day lo intervals -> lo <= 1440.
Proof.
  revert lo. induction intervals as [| iv rest IH]; intros lo; simpl; [tauto |].
  intros (H1 & H2 & H3). apply IH in H3. lia.
Qed.

(** Before the first interval of an ordered day nothing is working. *)
Lemma scan_same_day_before lo intervals m :
  ordered_day lo intervals -> 0 <= lo -> m < lo ->
  scan_same_day m intervals = false.
Proof.
  revert lo. induction intervals as [| iv rest IH]; intros lo; simpl; [reflexivity |].
  intros (H1 & H2 & H3) H0 Hm.
  pose proof (ordered_day_bound _ _ H3) as Hb.
  rewrite start_minutes_exact, end_minutes_exact
    by (unfold in_int, INT_MIN, INT_MAX; lia).
  rewrite (IH _ H3) by lia. case_Zb; try reflexivity; lia.
Qed.

Lemma count_minutes_ordered_day intervals : forall lo,
  ordered_day lo intervals -> 0 <= lo ->
  count_minutes (fun m => scan_same_day m intervals) lo (Z.to_nat (1440 - lo))
  = total_span intervals.
Proof.
  induction intervals as [| iv rest IH]; intros lo Hord H0.
  - simpl. apply count_minutes_false.
  - destruct Hord as (H1 & H2 & H3).
    pose proof (ordered_day_bound _ _ H3) as Hb.
    set (s := clock_minutes (fst iv)) in *. set (e := clock_minutes (snd iv)) in *.
    assert (Hs : start_minutes iv = s)
      by (apply start_minutes_exact; unfold in_int, INT_MIN, INT_MAX; fold s; lia).
    assert (He : end_minutes iv = e)
      by (apply end_minutes_exact; unfold in_int, INT_MIN, INT_MAX; fold e; lia).
    replace (Z.to_nat (1440 - lo))
      with (Z.to_nat (s - lo) + (Z.to_nat (e - s) + Z.to_nat (1440 - e)))%nat by lia.
    rewrite !count_minutes_app.
    replace (lo + Z.of_nat (Z.to_nat (s - lo))) with s by lia.
    replace (s + Z.of_nat (Z.to_nat (e - s))) with e by lia.
    rewrite (count_minutes_ext _ (fun _ => false) lo).
    2: { intros m Hm. simpl. rewrite Hs, He.
         rewrite (scan_same_day_before e rest m H3) by lia.
         case_Zb; try reflexivity; lia. }
    rewrite (count_minutes_ext _ (fun _ => true) s).
    2: { intros m Hm. simpl. rewrite Hs, He. case_Zb; try reflexivity; lia. }
    rewrite (count_minutes_ext _ (fun m => scan_same_day m rest) e).
    2: { intros m Hm. simpl. rewrite Hs, He. case_Zb; try reflexivity; lia. }
    rewrite count_minutes_false, count_minutes_true, (IH e H3) by lia.
    simpl. unfold span. fold s e. lia.
Qed.

(** X26: the two views of a day agree: for a day's list as the data model
    wants it, stored under one weekday, the C int minute total that
    [calculate_daily_hours] converts to hours is the number [n] of minutes
    of that day that [check_working_hours_fast] reports as working, and the
    hours returned are within a relative error of 2^-24 of [n / 60], equal
    to [n / 60] when [n] is a multiple of 15. *)
Theorem working_minutes_match_daily_hours (w : Z) (intervals : list interval) :
  ordered_day 0 intervals ->
  let n := count_minutes
             (fun m => check_working_hours_fast m w {[ w := intervals ]} false)
             0 1440 in
  let v := float_value (calculate_daily_hours intervals) in
  sum_minutes 0 intervals = n
  /\ calculate_daily_hours intervals = hours_of_minutes n
  /\ (Qabs (60 * v - inject_Z n) * inject_Z (2 ^ 24) <= inject_Z n)%Q
  /\ (n mod 15 = 0 -> 60 * v == inject_Z n).
Proof.
  intros Hord n v. subst n v.
  destruct (ordered_day_span 0 intervals Hord) as (H0 & Hhi & _).
  rewrite (count_minutes_ext _ (fun m => scan_same_day m intervals)).
  2: { intros m _. rewrite check_working_hours_fast_eq, lookup_singleton_eq.
       simpl. apply orb_false_r. }
  change 1440%nat with (Z.to_nat (1440 - 0)).
  rewrite count_minutes_ordered_day by (assumption || lia).
  assert (Hsum : sum_minutes 0 intervals = total_span intervals).
  { rewrite sum_minutes_total. apply wrap32_id. unfold in_int, INT_MIN, INT_MAX. lia. }
  unfold calculate_daily_hours. rewrite Hsum.
  assert (Hrange : 0 <= total_span intervals <= 1440) by lia.
  destruct (hours_in_day _ Hrange) as (_ & _ & _ & H4 & H5).
  repeat split; assumption.
Qed.

Lemma working_minutes_match_daily_hours_witness :
  let l := [((9, 0), (12, 0)); ((13, 0), (17, 30))] in
  sum_minutes 0 l
  = count_minutes (fun m => check_working_hours_fast m 2 {[ 2 := l ]} false) 0 1440.
Proof.
  apply (working_minutes_match_daily_hours 2 [((9, 0), (12, 0)); ((13, 0), (17, 30))]).
  vm_compute. repeat split; discriminate.
Defined.
